(** * climpred.classes: prediction-ensemble bookkeeping

    A shallow embedding of [climpred/classes.py]: the dimension and variable
    validators, the shared base [PredictionEnsemble] and its two subclasses
    [PerfectModelEnsemble] and [HindcastEnsemble].

    Methods are computations in a state-and-exception monad: the state is
    the object ([self]) together with the log of calls made to the external
    engines of [climpred.prediction] and [climpred.bootstrap]; an exception
    leaves the state as it was when it was raised, as in Python. *)

From stdpp Require Import gmap strings list fin_maps.

Local Open Scope string_scope.
Local Open Scope list_scope.

(** ** Exceptions ([climpred.exceptions] and the builtin ones) *)

Module exceptions.

(** [DimensionError] carries the set interpolated in its message by
    [_check_reference_dimensions] ([None] for the fixed message of
    [_check_prediction_ensemble_dimensions]); [VariableError] carries the
    two lists interpolated in its message. *)
Inductive exn : Type :=
| DimensionError (unmatch_dims : option (gset string))
| VariableError (init_vars ref_vars : list string)
| DatasetError
| KeyError (key : string)
| ValueError
| AttributeError (attr : string)
| IndexError
| NotImplementedError.

End exceptions.
Export exceptions.

(** ** The state-and-exception monad *)

Inductive outcome (A : Type) : Type :=
| Return (a : A)
| Raise (e : exn).
Arguments Return {A} a.
Arguments Raise {A} e.

Definition M (S A : Type) : Type := S → outcome A * S.

Global Instance M_ret {S} : MRet (M S) := λ A a s, (Return a, s).

Global Instance M_bind {S} : MBind (M S) := λ A B f m s,
  match m s with
  | (Return a, s') => f a s'
  | (Raise e, s') => (Raise e, s')
  end.

Definition raise {S A} (e : exn) : M S A := λ s, (Raise e, s).

(** [for x in l: acc = body(acc, x)], the locals of the loop threaded
    through as [acc]. *)
Fixpoint for_in {S A B} (l : list A) (body : B → A → M S B) (acc : B) : M S B :=
  match l with
  | [] => mret acc
  | x :: l => acc' ← body acc x; for_in l body acc'
  end.

(** ** The xarray objects, as far as the classes inspect them *)

Module xr.

(** A [Dataset] is seen through [.dims] (dimension name to length) and
    [.data_vars] (the ordered names of its data variables; xarray keeps
    them distinct). *)
Record Dataset : Type := mkDataset {
  dims : gmap string nat;
  data_vars : list string
}.

Record DataArray : Type := mkDataArray {
  name : option string;
  da_dims : gmap string nat
}.

Inductive xobj : Type :=
| IsDataset (ds : Dataset)
| IsDataArray (da : DataArray).

(** [DataArray.to_dataset()]: an unnamed array cannot be promoted. *)
Definition to_dataset {S} (da : DataArray) : M S Dataset :=
  match name da with
  | Some n => mret (mkDataset (da_dims da) [n])
  | None => raise ValueError
  end.

Definition rename_key (old new : string) (m : gmap string nat) : gmap string nat :=
  match m !! old with
  | Some n => <[new := n]> (delete old m)
  | None => m
  end.

(** [Dataset.rename({old: new})]: the name must be a variable or a
    dimension of the dataset; dimension and variable names are mapped
    through the renaming. *)
Definition rename {S} (old new : string) (ds : Dataset) : M S Dataset :=
  if bool_decide (old ∈ data_vars ds) || bool_decide (old ∈ dom (dims ds))
  then mret (mkDataset (rename_key old new (dims ds))
               ((λ v, if bool_decide (v = old) then new else v) <$> data_vars ds))
  else raise ValueError.

(** [Dataset.drop(labels)]: every label must name a variable. *)
Definition drop {S} (labels : list string) (ds : Dataset) : M S Dataset :=
  if forallb (λ v, bool_decide (v ∈ data_vars ds)) labels
  then mret (mkDataset (dims ds)
               (filter (λ v, v ∉ labels) (data_vars ds)))
  else raise ValueError.

(** [ds[var]]: the array of one data variable. The classes never look at
    the dimensions of such an array; it is given those of the dataset. *)
Definition getitem {S} (ds : Dataset) (var : string) : M S DataArray :=
  if bool_decide (var ∈ data_vars ds)
  then mret (mkDataArray (Some var) (dims ds))
  else raise (KeyError var).

(** [ds.lead.size] *)
Definition lead_size {S} (ds : Dataset) : M S nat :=
  match dims ds !! "lead" with
  | Some n => mret n
  | None => raise (AttributeError "lead")
  end.

(** [isinstance(xobj, xr.DataArray)] followed by [xobj.to_dataset()] *)
Definition promote {S} (x : xobj) : M S Dataset :=
  match x with
  | IsDataArray da => to_dataset da
  | IsDataset ds => mret ds
  end.

End xr.
Import xr.

(** ** Python builtins used by the module *)

(** [list(d)] for a mapping keyed by names. *)
Definition py_list (m : gmap string nat) : list string := elements (dom m).

(** [l.remove(x)], called only under [if x in l]. *)
Fixpoint py_remove (x : string) (l : list string) : list string :=
  match l with
  | [] => []
  | y :: l' => if bool_decide (y = x) then l' else y :: py_remove x l'
  end.

(** [l.index(x)] *)
Fixpoint py_index (x : string) (l : list string) : option nat :=
  match l with
  | [] => None
  | y :: l' => if bool_decide (y = x) then Some 0 else S <$> py_index x l'
  end.

(** [l.pop(i)] for its effect on [l]. *)
Definition py_pop (i : nat) (l : list string) : list string := delete i l.

(** [set(l)] *)
Definition py_set (l : list string) : gset string := list_to_set l.

(** [a ^ b] on sets *)
Definition py_xor (a b : gset string) : gset string := (a ∖ b) ∪ (b ∖ a).

(** ** Various checks *)

Section checks.
Context {S : Type}.

Definition _check_prediction_ensemble_dimensions (xobj : Dataset) : M S unit :=
  let cond := forallb (λ d, bool_decide (d ∈ dom (dims xobj))) ["init"; "lead"] in
  if negb cond then raise (DimensionError None) else mret ().

Definition _check_reference_dimensions (init ref : Dataset) : M S unit :=
  init ← rename "init" "time" init;
  let init_dims := py_list (dims init) in
  let init_dims :=
    if bool_decide ("lead" ∈ init_dims) then py_remove "lead" init_dims
    else init_dims in
  let init_dims :=
    if bool_decide ("member" ∈ init_dims) then py_remove "member" init_dims
    else init_dims in
  if negb (bool_decide (py_set (py_list (dims ref)) = py_set init_dims))
  then
    let unmatch_dims := py_xor (py_set (py_list (dims ref))) (py_set init_dims) in
    raise (DimensionError (Some unmatch_dims))
  else mret ().

Definition _check_reference_vars_match_initialized (init ref : Dataset) : M S unit :=
  let init_vars := data_vars init in
  let ref_vars := data_vars ref in
  if bool_decide (py_set init_vars ## py_set ref_vars)
  then raise (VariableError init_vars ref_vars)
  else mret ().

End checks.

(** ** Attributes that start as an empty dict *)

(** [self.control] and [self.uninitialized] are [{}] until a dataset is
    stored in them. *)
Inductive slot : Type :=
| EmptyDict
| Held (ds : Dataset).

(** [len(x)]: the number of data variables of a dataset, [0] for [{}]. *)
Definition py_len (x : slot) : nat :=
  match x with
  | EmptyDict => 0
  | Held ds => length (data_vars ds)
  end.

(** [x[var]] on such an attribute. *)
Definition slot_getitem {S} (x : slot) (var : string) : M S DataArray :=
  match x with
  | EmptyDict => raise (KeyError var)
  | Held ds => getitem ds var
  end.

(** [x.data_vars] on such an attribute. *)
Definition slot_data_vars {S} (x : slot) : M S (list string) :=
  match x with
  | EmptyDict => raise (AttributeError "data_vars")
  | Held ds => mret (data_vars ds)
  end.

(** [x.drop(labels)] on such an attribute. *)
Definition slot_drop {S} (labels : list string) (x : slot) : M S Dataset :=
  match x with
  | EmptyDict => raise (AttributeError "drop")
  | Held ds => drop labels ds
  end.

(** ** The collaborators: [climpred.prediction] and [climpred.bootstrap]

    The engines are outside this module; they are taken as total functions
    of their arguments, and every call is logged. *)

Module ext.

Class Engines : Type := {
  Result : Type;
  compute_perfect_model : slot → slot → string → string → Result;
  compute_hindcast : Dataset → Dataset → string → string → Result;
  compute_uninitialized : Dataset → Dataset → string → string → Result;
  compute_persistence : Dataset → slot → string → Result;
  bootstrap_perfect_model :
    DataArray → DataArray → string → string → Z → Z → option Z → Result;
  (** applied to two datasets, and to two arrays *)
  bootstrap_uninit_pm_ensemble_from_control : Dataset → slot → Dataset;
  bootstrap_uninit_pm_ensemble_from_control_da : DataArray → DataArray → DataArray
}.

(** Iteration over a Python [set] enumerates its elements once each, in
    an order the language does not fix. *)
Class Runtime : Type := {
  set_iter : gset string → list string;
  set_iter_perm : ∀ X, set_iter X ≡ₚ elements X
}.

Inductive call : Type :=
| ComputePerfectModel (init control : slot) (metric comparison : string)
| ComputeHindcast (init ref : Dataset) (metric comparison : string)
| ComputeUninitialized (uninit ref : Dataset) (metric comparison : string)
| ComputePersistence (init : Dataset) (ref : slot) (metric : string)
| BootstrapPerfectModel (init control : DataArray) (metric comparison : string)
    (sig bootstrap : Z) (pers_sig : option Z)
| BootstrapUninit (init : Dataset) (control : slot)
| BootstrapUninitDa (init control : DataArray).

End ext.

(** The object and the calls made so far. *)
Record world (O : Type) : Type := World {
  self : O;
  calls : list ext.call
}.
Arguments World {O} self calls.
Arguments self {O} w.
Arguments calls {O} w.

Definition getattr {O A} (f : O → A) : M (world O) A :=
  λ w, (Return (f (self w)), w).

Definition setattr {O} (upd : O → O) : M (world O) unit :=
  λ w, (Return (), World (upd (self w)) (calls w)).

Definition logged {O A} (c : ext.call) (r : A) : M (world O) A :=
  λ w, (Return r, World (self w) (calls w ++ [c])).

(** What a method returns: one result collection, or a dict of them. *)
Inductive retval `{ext.Engines} : Type :=
| One (r : ext.Result)
| Many (d : gmap string ext.Result).

(** ** Class definitions *)

Module PredictionEnsemble.

Record t : Type := mk {
  initialized : Dataset;
  uninitialized : slot
}.

Definition __init__ {S} (xobj : xobj) : M S t :=
  xobj ← promote xobj;
  _check_prediction_ensemble_dimensions xobj;;
  mret (mk xobj EmptyDict).

End PredictionEnsemble.

Module PerfectModelEnsemble.
Import PredictionEnsemble.

Record t : Type := mk {
  base : PredictionEnsemble.t;
  control : slot
}.

Definition __init__ {S} (xobj : xobj) : M S t :=
  b ← PredictionEnsemble.__init__ xobj;
  mret (mk b EmptyDict).

Definition set_control (c : slot) (o : t) : t := mk (base o) c.
Definition set_uninitialized (u : slot) (o : t) : t :=
  mk (PredictionEnsemble.mk (initialized (base o)) u) (control o).

Section methods.
Context `{ext.Engines}.

Definition add_control (xobj : xobj) : M (world t) unit :=
  xobj ← promote xobj;
  init ← getattr (initialized ∘ base);
  _check_reference_dimensions init xobj;;
  _check_reference_vars_match_initialized init xobj;;
  setattr (set_control (Held xobj)).

Definition generate_uninitialized (var : option string) : M (world t) unit :=
  init ← getattr (initialized ∘ base);
  ctrl ← getattr control;
  uninit ←
    match var with
    | Some var =>
        i ← getitem init var;
        c ← slot_getitem ctrl var;
        da ← logged (ext.BootstrapUninitDa i c)
               (ext.bootstrap_uninit_pm_ensemble_from_control_da i c);
        to_dataset da
    | None =>
        logged (ext.BootstrapUninit init ctrl)
          (ext.bootstrap_uninit_pm_ensemble_from_control init ctrl)
    end;
  setattr (set_uninitialized (Held uninit)).

Definition compute_metric (metric comparison : string) : M (world t) retval :=
  ctrl ← getattr control;
  if (py_len ctrl =? 0)%nat then raise DatasetError
  else
    init ← getattr (initialized ∘ base);
    r ← logged (ext.ComputePerfectModel (Held init) ctrl metric comparison)
          (ext.compute_perfect_model (Held init) ctrl metric comparison);
    mret (One r).

Definition compute_uninitialized (metric comparison : string) : M (world t) retval :=
  uninit ← getattr (uninitialized ∘ base);
  if (py_len uninit =? 0)%nat then raise DatasetError
  else
    ctrl ← getattr control;
    r ← logged (ext.ComputePerfectModel uninit ctrl metric comparison)
          (ext.compute_perfect_model uninit ctrl metric comparison);
    mret (One r).

Definition compute_persistence (nlags : option nat) (metric : string)
  : M (world t) retval :=
  ctrl ← getattr control;
  (if (py_len ctrl =? 0)%nat then raise DatasetError else mret ());;
  init ← getattr (initialized ∘ base);
  nlags ← match nlags with
          | None => lead_size init
          | Some n => mret n
          end;
  r ← logged (ext.ComputePersistence init ctrl metric)
        (ext.compute_persistence init ctrl metric);
  mret (One r).

Definition bootstrap (var : option string) (metric comparison : string)
    (sig bootstrap : Z) (pers_sig : option Z) : M (world t) retval :=
  let engine i c :=
    logged (ext.BootstrapPerfectModel i c metric comparison sig bootstrap pers_sig)
      (ext.bootstrap_perfect_model i c metric comparison sig bootstrap pers_sig) in
  ctrl ← getattr control;
  (if (py_len ctrl =? 0)%nat then raise DatasetError else mret ());;
  init ← getattr (initialized ∘ base);
  match var with
  | Some var =>
      i ← getitem init var;
      c ← slot_getitem ctrl var;
      r ← engine i c;
      mret (One r)
  | None =>
      if (length (data_vars init) =? 1)%nat then
        var ← for_in (data_vars init) (λ _ var, mret (Some var)) None;
        match var with
        | None => raise (KeyError "None")
        | Some var =>
            i ← getitem init var;
            c ← slot_getitem ctrl var;
            r ← engine i c;
            mret (One r)
        end
      else
        ctrl_vars ← slot_data_vars ctrl;
        boot ← for_in ctrl_vars (λ (boot : gmap string ext.Result) var,
                  i ← getitem init var;
                  c ← slot_getitem ctrl var;
                  res ← engine i c;
                  mret (<[var := res]> boot)) ∅;
        mret (Many boot)
  end.

End methods.
End PerfectModelEnsemble.

Module HindcastEnsemble.
Import PredictionEnsemble.

Record t : Type := mk {
  base : PredictionEnsemble.t;
  reference : gmap string Dataset
}.

Definition __init__ {S} (xobj : xobj) : M S t :=
  b ← PredictionEnsemble.__init__ xobj;
  mret (mk b ∅).

Definition set_reference (name : string) (ds : Dataset) (o : t) : t :=
  mk (base o) (<[name := ds]> (reference o)).
Definition set_uninitialized (u : slot) (o : t) : t :=
  mk (PredictionEnsemble.mk (initialized (base o)) u) (reference o).

(** [self.reference[key]] *)
Definition reference_getitem (key : string) : M (world t) Dataset :=
  refs ← getattr reference;
  match refs !! key with
  | Some ds => mret ds
  | None => raise (KeyError key)
  end.

(** The keys of [self.reference], as [for key in self.reference] and
    [list(self.reference.keys())] enumerate them (each key once; the
    finite map does not record insertion order). *)
Definition reference_keys : M (world t) (list string) :=
  refs ← getattr reference;
  mret ((map_to_list refs).*1).

(** The body of the loop of [_vars_to_drop]: the variable is popped from
    both lists. *)
Definition pop_both {S} : list string * list string → string →
    M S (list string * list string) :=
  λ '(init_vars, ref_vars) var,
    match py_index var init_vars with
    | None => raise ValueError
    | Some idx =>
        let init_vars := py_pop idx init_vars in
        match py_index var ref_vars with
        | None => raise ValueError
        | Some idx =>
            let ref_vars := py_pop idx ref_vars in
            mret (init_vars, ref_vars)
        end
    end.

Section methods.
Context `{ext.Engines} `{ext.Runtime}.

Definition _vars_to_drop (ref : string) (init : bool)
  : M (world t) (list string * list string) :=
  init_vars ←
    (if init then getattr (data_vars ∘ initialized ∘ base)
     else u ← getattr (uninitialized ∘ base); slot_data_vars u);
  r ← reference_getitem ref;
  let ref_vars := data_vars r in
  let intersect := py_set ref_vars ∩ py_set init_vars in
  for_in (ext.set_iter intersect) pop_both (init_vars, ref_vars).

Definition add_reference (xobj : xobj) (name : string) : M (world t) unit :=
  xobj ← promote xobj;
  init ← getattr (initialized ∘ base);
  _check_reference_dimensions init xobj;;
  _check_reference_vars_match_initialized init xobj;;
  setattr (set_reference name xobj).

Definition add_uninitialized (xobj : xobj) : M (world t) unit :=
  xobj ← promote xobj;
  init ← getattr (initialized ∘ base);
  _check_reference_dimensions init xobj;;
  _check_reference_vars_match_initialized init xobj;;
  setattr (set_uninitialized (Held xobj)).

(** The body shared by the three branches of [compute_metric]. *)
Definition hindcast_for (refname metric comparison : string)
  : M (world t) ext.Result :=
  '(drop_init, drop_ref) ← _vars_to_drop refname true;
  init ← getattr (initialized ∘ base);
  i ← drop drop_init init;
  ref ← reference_getitem refname;
  r ← drop drop_ref ref;
  logged (ext.ComputeHindcast i r metric comparison)
    (ext.compute_hindcast i r metric comparison).

Definition compute_metric (refname : option string) (metric comparison : string)
  : M (world t) retval :=
  refs ← getattr reference;
  (if (size refs =? 0)%nat then raise DatasetError else mret ());;
  match refname with
  | Some refname =>
      r ← hindcast_for refname metric comparison;
      mret (One r)
  | None =>
      if (size refs =? 1)%nat then
        keys ← reference_keys;
        match keys !! 0%nat with
        | None => raise IndexError
        | Some refname =>
            r ← hindcast_for refname metric comparison;
            mret (One r)
        end
      else
        keys ← reference_keys;
        skill ← for_in keys (λ (skill : gmap string ext.Result) key,
                   r ← hindcast_for key metric comparison;
                   mret (<[key := r]> skill)) ∅;
        mret (Many skill)
  end.

(** The body shared by the three branches of [compute_uninitialized]. *)
Definition uninitialized_for (refname metric comparison : string)
  : M (world t) ext.Result :=
  '(drop_un, drop_ref) ← _vars_to_drop refname false;
  uninit ← getattr (uninitialized ∘ base);
  u ← slot_drop drop_un uninit;
  ref ← reference_getitem refname;
  r ← drop drop_ref ref;
  logged (ext.ComputeUninitialized u r metric comparison)
    (ext.compute_uninitialized u r metric comparison).

Definition compute_uninitialized (refname : option string)
    (metric comparison : string) : M (world t) retval :=
  uninit ← getattr (uninitialized ∘ base);
  (if (py_len uninit =? 0)%nat then raise DatasetError else mret ());;
  refs ← getattr reference;
  match refname with
  | Some refname =>
      r ← uninitialized_for refname metric comparison;
      mret (One r)
  | None =>
      if (size refs =? 1)%nat then
        keys ← reference_keys;
        match keys !! 0%nat with
        | None => raise IndexError
        | Some refname =>
            r ← uninitialized_for refname metric comparison;
            mret (One r)
        end
      else
        keys ← reference_keys;
        u ← for_in keys (λ (u : gmap string ext.Result) key,
               r ← uninitialized_for key metric comparison;
               mret (<[key := r]> u)) ∅;
        mret (Many u)
  end.

Definition compute_persistence (refname : option string) (nlags : option nat)
    (metric : string) : M (world t) retval :=
  refs ← getattr reference;
  (if (size refs =? 0)%nat then raise DatasetError else mret ());;
  init ← getattr (initialized ∘ base);
  nlags ← match nlags with
          | None => lead_size init
          | Some n => mret n
          end;
  match refname with
  | Some refname =>
      ref ← reference_getitem refname;
      r ← logged (ext.ComputePersistence init (Held ref) metric)
            (ext.compute_persistence init (Held ref) metric);
      mret (One r)
  | None =>
      keys ← reference_keys;
      persistence ← for_in keys (λ (persistence : gmap string ext.Result) key,
                       ref ← reference_getitem key;
                       r ← logged (ext.ComputePersistence init (Held ref) metric)
                             (ext.compute_persistence init (Held ref) metric);
                       mret (<[key := r]> persistence)) ∅;
      mret (Many persistence)
  end.

Definition compute_horizon (refname : option string) : M (world t) retval :=
  raise NotImplementedError.

End methods.
End HindcastEnsemble.

(** * Specification-level notions *)

(** The dimension set required of a control, reference or uninitialized
    dataset, in the words of the specification: the dimensions of the
    initialized dataset with [init] renamed to [time], without [lead] and
    [member]. *)
Definition spec_reference_dims (init : Dataset) : gset string :=
  ({["time"]} ∪ (dom (dims init) ∖ {["init"]})) ∖ {["lead"]} ∖ {["member"]}.

(** The exception a run ended with, if any. *)
Definition raised {A S} (r : outcome A * S) : option exn :=
  match r.1 with
  | Raise e => Some e
  | Return _ => None
  end.

(** xarray keeps the names of the data variables of a dataset distinct. *)
Definition Dataset_wf (ds : Dataset) : Prop := NoDup (data_vars ds).

Global Instance Dataset_wf_dec (ds : Dataset) : Decision (Dataset_wf ds).
Proof. unfold Dataset_wf. apply _. Defined.

(** The datasets of a [HindcastEnsemble] are well formed. *)
Definition hindcast_wf (o : HindcastEnsemble.t) : Prop :=
  Dataset_wf (PredictionEnsemble.initialized (HindcastEnsemble.base o)) ∧
  map_Forall (λ _ r, Dataset_wf r) (HindcastEnsemble.reference o).

Global Instance hindcast_wf_dec (o : HindcastEnsemble.t) : Decision (hindcast_wf o).
Proof. unfold hindcast_wf. apply _. Defined.

(** What construction checked of the initialized dataset. *)
Definition initialized_ok (init : Dataset) : Prop :=
  "init" ∈ dom (dims init) ∧ "lead" ∈ dom (dims init).

Global Instance initialized_ok_dec (init : Dataset) : Decision (initialized_ok init).
Proof. unfold initialized_ok. apply _. Defined.

(** What [add_control] checked of a dataset before storing it. *)
Definition accepted (init ref : Dataset) : Prop :=
  dom (dims ref) = spec_reference_dims init ∧
  ¬ py_set (data_vars init) ## py_set (data_vars ref).

Global Instance accepted_dec (init ref : Dataset) : Decision (accepted init ref).
Proof. unfold accepted. apply _. Defined.

(** The invariant of a [PerfectModelEnsemble]: the initialized dataset
    passed construction, and the control, once stored, passed the checks
    of [add_control]. *)
Definition pm_inv (o : PerfectModelEnsemble.t) : Prop :=
  let init := PredictionEnsemble.initialized (PerfectModelEnsemble.base o) in
  initialized_ok init ∧
  match PerfectModelEnsemble.control o with
  | EmptyDict => True
  | Held c => accepted init c
  end.

Global Instance pm_inv_dec (o : PerfectModelEnsemble.t) : Decision (pm_inv o).
Proof. unfold pm_inv. destruct (PerfectModelEnsemble.control o); apply _. Defined.

(** [ds] restricted to the data variables it shares with [other]. *)
Definition shared_with (other ds : Dataset) : Dataset :=
  mkDataset (dims ds) (filter (λ v, v ∈ data_vars other) (data_vars ds)).

(** The dict a loop leaves behind when it runs [acc[key(x)] = val(x)] for
    [x] in [l]. *)
Definition filled {X V} (key : X → string) (val : X → V)
    (acc : gmap string V) (l : list X) : gmap string V :=
  foldl (λ acc x, <[key x := val x]> acc) acc l.

(** ** What the methods are expected to hand to the engines *)

Section expected_calls.
Context `{ext.Engines}.
Import PredictionEnsemble.

(** The dataset [_vars_to_drop] compares with the reference. *)
Definition chosen_side (o : HindcastEnsemble.t) (init : bool) : slot :=
  if init then Held (initialized (HindcastEnsemble.base o))
  else uninitialized (HindcastEnsemble.base o).

(** Comparing the initialized dataset with one reference, each restricted
    to the variables they share. *)
Definition hindcast_call (o : HindcastEnsemble.t) (metric comparison : string)
    (r : Dataset) : ext.call :=
  let init := initialized (HindcastEnsemble.base o) in
  ext.ComputeHindcast (shared_with r init) (shared_with init r) metric comparison.

Definition hindcast_result (o : HindcastEnsemble.t) (metric comparison : string)
    (r : Dataset) : ext.Result :=
  let init := initialized (HindcastEnsemble.base o) in
  ext.compute_hindcast (shared_with r init) (shared_with init r) metric comparison.

(** Computing persistence for the full initialized dataset and one full
    reference or control. *)
Definition persistence_call (init : Dataset) (metric : string) (r : Dataset)
  : ext.call :=
  ext.ComputePersistence init (Held r) metric.

Definition persistence_result (init : Dataset) (metric : string) (r : Dataset)
  : ext.Result :=
  ext.compute_persistence init (Held r) metric.

(** Bootstrapping one variable of the initialized dataset and the control. *)
Definition bootstrap_call (init control : Dataset) (metric comparison : string)
    (sig bootstrap : Z) (pers_sig : option Z) (var : string) : ext.call :=
  ext.BootstrapPerfectModel (mkDataArray (Some var) (dims init))
    (mkDataArray (Some var) (dims control)) metric comparison sig bootstrap pers_sig.

Definition bootstrap_result (init control : Dataset) (metric comparison : string)
    (sig bootstrap : Z) (pers_sig : option Z) (var : string) : ext.Result :=
  ext.bootstrap_perfect_model (mkDataArray (Some var) (dims init))
    (mkDataArray (Some var) (dims control)) metric comparison sig bootstrap pers_sig.

End expected_calls.

(** ** Further notions used to state what the methods keep *)

(** A computation that only reads the object and calls engines: whatever
    its outcome, [self] is what it was and the call log has only grown. *)
Definition observes {O A} (m : M (world O) A) : Prop :=
  ∀ w, self (m w).2 = self w ∧ calls w `prefix_of` calls (m w).2.

(** The invariant of a [HindcastEnsemble]: the initialized dataset passed
    construction, and every stored reference, and the uninitialized dataset
    once stored, passed the checks of [add_reference] and
    [add_uninitialized]. *)
Definition hc_inv (o : HindcastEnsemble.t) : Prop :=
  let init := PredictionEnsemble.initialized (HindcastEnsemble.base o) in
  initialized_ok init ∧
  map_Forall (λ _ r, accepted init r) (HindcastEnsemble.reference o) ∧
  match PredictionEnsemble.uninitialized (HindcastEnsemble.base o) with
  | EmptyDict => True
  | Held u => accepted init u
  end.

Global Instance hc_inv_dec (o : HindcastEnsemble.t) : Decision (hc_inv o).
Proof.
  unfold hc_inv.
  destruct (PredictionEnsemble.uninitialized (HindcastEnsemble.base o)); apply _.
Defined.

(** Comparing the uninitialized dataset with one reference, each restricted
    to the variables they share. *)
Definition uninitialized_call (u : Dataset) (metric comparison : string)
    (r : Dataset) : ext.call :=
  ext.ComputeUninitialized (shared_with r u) (shared_with u r) metric comparison.

Definition uninitialized_result `{ext.Engines} (u : Dataset)
    (metric comparison : string) (r : Dataset) : ext.Result :=
  ext.compute_uninitialized (shared_with r u) (shared_with u r) metric comparison.

(** ** Sessions: sequences of method calls on one ensemble *)

Inductive pm_method : Type :=
| PmAddControl (xobj : xobj)
| PmGenerateUninitialized (var : option string)
| PmComputeMetric (metric comparison : string)
| PmComputeUninitialized (metric comparison : string)
| PmComputePersistence (nlags : option nat) (metric : string)
| PmBootstrap (var : option string) (metric comparison : string)
    (sig bootstrap : Z) (pers_sig : option Z).

Inductive hc_method : Type :=
| HcAddReference (xobj : xobj) (name : string)
| HcAddUninitialized (xobj : xobj)
| HcComputeMetric (refname : option string) (metric comparison : string)
| HcComputeUninitialized (refname : option string) (metric comparison : string)
| HcComputePersistence (refname : option string) (nlags : option nat) (metric : string)
| HcComputeHorizon (refname : option string).

Section sessions.
Context `{ext.Engines} `{ext.Runtime}.

(** The state a call leaves behind, whether it returned or raised. *)
Definition pm_after (w : world PerfectModelEnsemble.t) (c : pm_method)
  : world PerfectModelEnsemble.t :=
  match c with
  | PmAddControl x => (PerfectModelEnsemble.add_control x w).2
  | PmGenerateUninitialized var => (PerfectModelEnsemble.generate_uninitialized var w).2
  | PmComputeMetric m c => (PerfectModelEnsemble.compute_metric m c w).2
  | PmComputeUninitialized m c => (PerfectModelEnsemble.compute_uninitialized m c w).2
  | PmComputePersistence n m => (PerfectModelEnsemble.compute_persistence n m w).2
  | PmBootstrap v m c s b p => (PerfectModelEnsemble.bootstrap v m c s b p w).2
  end.

Definition hc_after (w : world HindcastEnsemble.t) (c : hc_method)
  : world HindcastEnsemble.t :=
  match c with
  | HcAddReference x name => (HindcastEnsemble.add_reference x name w).2
  | HcAddUninitialized x => (HindcastEnsemble.add_uninitialized x w).2
  | HcComputeMetric r m c => (HindcastEnsemble.compute_metric r m c w).2
  | HcComputeUninitialized r m c => (HindcastEnsemble.compute_uninitialized r m c w).2
  | HcComputePersistence r n m => (HindcastEnsemble.compute_persistence r n m w).2
  | HcComputeHorizon r => (HindcastEnsemble.compute_horizon r w).2
  end.

End sessions.

(** * Concrete ensembles

    Engines that answer with the record of the call they received, the
    enumeration of a set by [elements], and a few datasets. *)

Module demo.

#[export] Instance engines : ext.Engines := {|
  ext.Result := ext.call;
  ext.compute_perfect_model := ext.ComputePerfectModel;
  ext.compute_hindcast := ext.ComputeHindcast;
  ext.compute_uninitialized := ext.ComputeUninitialized;
  ext.compute_persistence := ext.ComputePersistence;
  ext.bootstrap_perfect_model := ext.BootstrapPerfectModel;
  ext.bootstrap_uninit_pm_ensemble_from_control := λ init _, init;
  ext.bootstrap_uninit_pm_ensemble_from_control_da := λ init _, init
|}.

#[export] Instance runtime : ext.Runtime := {|
  ext.set_iter := elements;
  ext.set_iter_perm := λ X, reflexivity (elements X)
|}.

Definition with_dims (names : list string) : gmap string nat :=
  list_to_map ((λ d, (d, 3)) <$> names).

(** A forecast of [SST] and [SALT] over [init], [lead] and [member]. *)
Definition forecast : Dataset :=
  mkDataset (with_dims ["init"; "lead"; "member"]) ["SST"; "SALT"].

(** A forecast of the single variable [SST]. *)
Definition forecast_sst : Dataset :=
  mkDataset (with_dims ["init"; "lead"; "member"]) ["SST"].

(** A dataset without the [lead] dimension. *)
Definition no_lead : Dataset :=
  mkDataset (with_dims ["init"; "member"]) ["SST"].

(** Observations of [SST] over [time]. *)
Definition obs_sst : Dataset := mkDataset (with_dims ["time"]) ["SST"].

(** Observations of [SST] and [TEMP] over [time]: [TEMP] is not forecast. *)
Definition obs_sst_temp : Dataset := mkDataset (with_dims ["time"]) ["SST"; "TEMP"].

(** Observations of [SALT] over [time]. *)
Definition obs_salt : Dataset := mkDataset (with_dims ["time"]) ["SALT"].

(** Observations of [TEMP] only. *)
Definition obs_temp : Dataset := mkDataset (with_dims ["time"]) ["TEMP"].

(** Observations on a grid the forecast does not have. *)
Definition obs_gridded : Dataset := mkDataset (with_dims ["time"; "lat"]) ["SST"].

Definition perfect_model (init : Dataset) (control : slot)
  : world PerfectModelEnsemble.t :=
  World (PerfectModelEnsemble.mk (PredictionEnsemble.mk init EmptyDict) control) [].

Definition hindcast (init : Dataset) (uninit : slot) (refs : list (string * Dataset))
  : world HindcastEnsemble.t :=
  World (HindcastEnsemble.mk (PredictionEnsemble.mk init uninit) (list_to_map refs)) [].

End demo.

(** More concrete data: observations of [SST] over a longer [time] axis,
    an array of [SST] over [time], and two sessions. *)

Module demo_sessions.
Import demo.

Definition obs_sst_long : Dataset :=
  mkDataset (list_to_map [("time", 50)]) ["SST"].

Definition sst_array : DataArray :=
  mkDataArray (Some "SST") (with_dims ["time"]).

Definition pm_session : list pm_method :=
  [ PmComputeMetric "pearson_r" "m2m";
    PmAddControl (IsDataset obs_sst);
    PmAddControl (IsDataset obs_gridded);
    PmGenerateUninitialized None;
    PmBootstrap None "pearson_r" "m2e" 95 500 None ].

Definition hc_session : list hc_method :=
  [ HcAddReference (IsDataset obs_sst) "obs";
    HcAddReference (IsDataset obs_temp) "temp";
    HcAddUninitialized (IsDataArray sst_array);
    HcComputeMetric None "pearson_r" "e2r";
    HcAddReference (IsDataset obs_salt) "obs" ].

End demo_sessions.

(** * Properties of the builtins *)

Section builtins.
Implicit Types (l : list string) (x y : string).

Lemma filter_ne_fresh x l : x ∉ l → filter (λ y, y ≠ x) l = l.
Proof.
  induction l as [|y l IH]; [done|].
  rewrite not_elem_of_cons. intros [Hxy Hx].
  rewrite filter_cons_True by congruence. by rewrite IH.
Qed.

Lemma py_remove_filter x l : NoDup l → py_remove x l = filter (λ y, y ≠ x) l.
Proof.
  induction 1 as [|y l Hy Hl IH]; [done|]. simpl.
  case_bool_decide as Hyx.
  - subst y. rewrite filter_cons_False by (intros ?; congruence).
    by rewrite filter_ne_fresh.
  - rewrite filter_cons_True by done. by rewrite IH.
Qed.

Lemma py_index_pop x l :
  NoDup l → x ∈ l →
  ∃ i, py_index x l = Some i ∧ py_pop i l = filter (λ y, y ≠ x) l.
Proof.
  induction 1 as [|y l Hy Hl IH]; [by intros ?%elem_of_nil|].
  intros Hx. simpl. case_bool_decide as Hyx.
  - subst y. exists 0. split; [done|]. simpl.
    rewrite filter_cons_False by (intros ?; congruence).
    by rewrite filter_ne_fresh.
  - apply elem_of_cons in Hx as [->|Hx]; [done|].
    destruct (IH Hx) as (i & -> & Hpop). exists (S i). split; [done|].
    rewrite filter_cons_True by done. unfold py_pop in *. simpl.
    f_equal. exact Hpop.
Qed.

Lemma py_set_elements (X : gset string) : py_set (elements X) = X.
Proof. apply list_to_set_elements_L. Qed.

Lemma py_set_filter_ne x l : py_set (filter (λ y, y ≠ x) l) = py_set l ∖ {[x]}.
Proof.
  apply set_eq. intros y. unfold py_set.
  rewrite elem_of_difference, !elem_of_list_to_set, list_elem_of_filter.
  set_solver.
Qed.

(** [if x in l: l.remove(x)] on a list without repetition. *)
Lemma py_remove_guarded x l :
  NoDup l →
  let l' := if bool_decide (x ∈ l) then py_remove x l else l in
  NoDup l' ∧ py_set l' = py_set l ∖ {[x]}.
Proof.
  intros Hl. simpl. case_bool_decide as Hx.
  - rewrite py_remove_filter by done. split.
    + by apply NoDup_filter.
    + apply py_set_filter_ne.
  - split; [done|]. unfold py_set. apply set_eq. intros y.
    rewrite elem_of_difference, elem_of_list_to_set. set_solver.
Qed.


End builtins.

(** * Properties of the checks *)

Lemma rename_key_dom (m : gmap string nat) :
  "init" ∈ dom m →
  dom (rename_key "init" "time" m) = {["time"]} ∪ (dom m ∖ {["init"]}).
Proof.
  intros [n Hn]%elem_of_dom. unfold rename_key. rewrite Hn.
  by rewrite dom_insert_L, dom_delete_L.
Qed.

(** What [_check_reference_dimensions] does, in one equation. *)
Lemma check_reference_dimensions_run {S} (init ref : Dataset) (s : S) :
  "init" ∈ dom (dims init) →
  _check_reference_dimensions init ref s =
    if bool_decide (dom (dims ref) = spec_reference_dims init)
    then (Return (), s)
    else (Raise (DimensionError
                   (Some (py_xor (dom (dims ref)) (spec_reference_dims init)))), s).
Proof.
  intros Hinit. unfold _check_reference_dimensions, rename, mbind, M_bind.
  rewrite (bool_decide_eq_true_2 ("init" ∈ dom (dims init))) by done.
  rewrite orb_true_r. simpl. unfold py_list.
  set (l0 := elements (dom (rename_key "init" "time" (dims init)))).
  assert (NoDup l0) as Hl0 by apply NoDup_elements.
  destruct (py_remove_guarded "lead" l0 Hl0) as [Hl1 E1].
  set (l1 := if bool_decide ("lead" ∈ l0) then py_remove "lead" l0 else l0) in *.
  destruct (py_remove_guarded "member" l1 Hl1) as [Hl2 E2].
  set (l2 := if bool_decide ("member" ∈ l1) then py_remove "member" l1 else l1) in *.
  assert (py_set l2 = spec_reference_dims init) as ->.
  { rewrite E2, E1. unfold l0. rewrite py_set_elements, rename_key_dom by done.
    done. }
  rewrite py_set_elements.
  by case_bool_decide.
Qed.

Lemma check_reference_vars_run {S} (init ref : Dataset) (s : S) :
  _check_reference_vars_match_initialized init ref s =
    if bool_decide (py_set (data_vars init) ## py_set (data_vars ref))
    then (Raise (VariableError (data_vars init) (data_vars ref)), s)
    else (Return (), s).
Proof. unfold _check_reference_vars_match_initialized. by case_bool_decide. Qed.

Lemma py_set_disjoint (l1 l2 : list string) :
  py_set l1 ## py_set l2 ↔ ∀ v, v ∈ l1 → v ∉ l2.
Proof.
  unfold py_set. rewrite elem_of_disjoint.
  split; intros Hd v; specialize (Hd v);
    rewrite ?elem_of_list_to_set in *; tauto.
Qed.

(** The checks and the promotion of an array never change the state. *)
Lemma promote_state {S} (x : xobj) (s : S) : (promote x s).2 = s.
Proof. destruct x as [ds|[[n|] d]]; done. Qed.

Lemma check_reference_dimensions_state {S} (init ref : Dataset) (s : S) :
  (_check_reference_dimensions init ref s).2 = s.
Proof.
  unfold _check_reference_dimensions, rename, mbind, M_bind, raise, mret, M_ret.
  repeat (case_match; simpl in *; simplify_eq); done.
Qed.

Lemma check_reference_vars_state {S} (init ref : Dataset) (s : S) :
  (_check_reference_vars_match_initialized init ref s).2 = s.
Proof. rewrite check_reference_vars_run. by case_bool_decide. Qed.

(** A store guarded by the two checks: the shape shared by [add_control],
    [add_reference] and [add_uninitialized]. *)
Lemma guarded_store_state {O} (x : xobj) (get_init : O → Dataset)
    (store : Dataset → O → O) (w w' : world O) (e : exn) :
  (xobj ← promote x;
   init ← getattr get_init;
   _check_reference_dimensions init xobj;;
   _check_reference_vars_match_initialized init xobj;;
   setattr (store xobj)) w = (Raise e, w') →
  w' = w.
Proof.
  unfold mbind, M_bind, getattr, setattr.
  pose proof (promote_state x w) as Hp.
  destruct (promote x w) as [[ds|e0] w0]; simpl in Hp; subst w0;
    [|by intros [= _ <-]].
  pose proof (check_reference_dimensions_state (get_init (self w)) ds w) as Hd.
  destruct (_check_reference_dimensions _ ds w) as [[[]|e1] w1];
    simpl in Hd; subst w1; [|by intros [= _ <-]].
  pose proof (check_reference_vars_state (get_init (self w)) ds w) as Hv.
  destruct (_check_reference_vars_match_initialized _ ds w) as [[[]|e2] w2];
    simpl in Hv; subst w2; [|by intros [= _ <-]].
  done.
Qed.

Lemma guarded_store_cases {O} (x : xobj) (get_init : O → Dataset)
    (store : Dataset → O → O) (w : world O) :
  let r := (xobj ← promote x;
            init ← getattr get_init;
            _check_reference_dimensions init xobj;;
            _check_reference_vars_match_initialized init xobj;;
            setattr (store xobj)) w in
  (∃ e, r = (Raise e, w)) ∨
  (∃ ds, r = (Return (), World (store ds (self w)) (calls w))).
Proof.
  simpl. unfold mbind, M_bind, getattr, setattr.
  pose proof (promote_state x w) as Hp.
  destruct (promote x w) as [[ds|e0] w0]; simpl in Hp; subst w0;
    [|left; by eexists].
  pose proof (check_reference_dimensions_state (get_init (self w)) ds w) as Hd.
  destruct (_check_reference_dimensions _ ds w) as [[[]|e1] w1];
    simpl in Hd; subst w1; [|left; by eexists].
  pose proof (check_reference_vars_state (get_init (self w)) ds w) as Hv.
  destruct (_check_reference_vars_match_initialized _ ds w) as [[[]|e2] w2];
    simpl in Hv; subst w2; [|left; by eexists].
  right. by eexists.
Qed.

Lemma guarded_store_run {O} (ref : Dataset) (get_init : O → Dataset)
    (store : Dataset → O → O) (w : world O) :
  "init" ∈ dom (dims (get_init (self w))) →
  (xobj ← promote (IsDataset ref);
   init ← getattr get_init;
   _check_reference_dimensions init xobj;;
   _check_reference_vars_match_initialized init xobj;;
   setattr (store xobj)) w =
  if bool_decide (dom (dims ref) = spec_reference_dims (get_init (self w))) then
    if bool_decide (py_set (data_vars (get_init (self w))) ## py_set (data_vars ref))
    then (Raise (VariableError (data_vars (get_init (self w))) (data_vars ref)), w)
    else (Return (), World (store ref (self w)) (calls w))
  else (Raise (DimensionError
                 (Some (py_xor (dom (dims ref))
                          (spec_reference_dims (get_init (self w)))))), w).
Proof.
  intros Hinit. unfold mbind, M_bind, getattr, setattr. simpl.
  rewrite check_reference_dimensions_run by done.
  case_bool_decide; [|done].
  rewrite check_reference_vars_run. by case_bool_decide.
Qed.

(** * Construction *)

(** C9. Constructing a [PredictionEnsemble] (hence a [PerfectModelEnsemble]
    or a [HindcastEnsemble]) from a dataset whose dimensions lack [init] or
    lack [lead] raises [DimensionError]; from a dataset that has both it
    succeeds and stores the dataset as [initialized], with the other
    attributes empty. *)
Theorem construction_checks_init_and_lead {S} (ds : Dataset) (s : S) :
  (("init" ∉ dom (dims ds) ∨ "lead" ∉ dom (dims ds)) →
     PredictionEnsemble.__init__ (IsDataset ds) s = (Raise (DimensionError None), s) ∧
     PerfectModelEnsemble.__init__ (IsDataset ds) s = (Raise (DimensionError None), s) ∧
     HindcastEnsemble.__init__ (IsDataset ds) s = (Raise (DimensionError None), s)) ∧
  ("init" ∈ dom (dims ds) ∧ "lead" ∈ dom (dims ds) →
     PredictionEnsemble.__init__ (IsDataset ds) s =
       (Return (PredictionEnsemble.mk ds EmptyDict), s) ∧
     PerfectModelEnsemble.__init__ (IsDataset ds) s =
       (Return (PerfectModelEnsemble.mk (PredictionEnsemble.mk ds EmptyDict) EmptyDict), s) ∧
     HindcastEnsemble.__init__ (IsDataset ds) s =
       (Return (HindcastEnsemble.mk (PredictionEnsemble.mk ds EmptyDict) ∅), s)).
Proof.
  unfold PerfectModelEnsemble.__init__, HindcastEnsemble.__init__,
    PredictionEnsemble.__init__, _check_prediction_ensemble_dimensions,
    mbind, M_bind. simpl.
  split.
  - intros Hmiss.
    assert (bool_decide ("init" ∈ dom (dims ds)) &&
            (bool_decide ("lead" ∈ dom (dims ds)) && true) = false) as ->; [|done].
    destruct Hmiss as [Hm|Hm].
    + by rewrite (bool_decide_eq_false_2 _ Hm).
    + rewrite (bool_decide_eq_false_2 _ Hm). apply andb_false_r.
  - intros [Hi Hl].
    by rewrite (bool_decide_eq_true_2 _ Hi), (bool_decide_eq_true_2 _ Hl).
Qed.

(** * The dimension check *)


(** * The variable check *)


(** * Failed additions leave the ensemble as it was *)

(** C7. When [add_control], [add_reference] or [add_uninitialized] raises
    (a [DimensionError], a [VariableError], or any other exception), the
    ensemble is left exactly as it was before the call: the stored control,
    reference mapping and uninitialized dataset keep their prior values,
    since the assignment comes after every validation. *)
Theorem failed_add_leaves_state :
  (∀ x (w w' : world PerfectModelEnsemble.t) e,
     PerfectModelEnsemble.add_control x w = (Raise e, w') → w' = w) ∧
  (∀ x name (w w' : world HindcastEnsemble.t) e,
     HindcastEnsemble.add_reference x name w = (Raise e, w') → w' = w) ∧
  (∀ x (w w' : world HindcastEnsemble.t) e,
     HindcastEnsemble.add_uninitialized x w = (Raise e, w') → w' = w).
Proof.
  split_and!.
  - intros x w w' e.
    apply (guarded_store_state x
             (PredictionEnsemble.initialized ∘ PerfectModelEnsemble.base)
             (λ d, PerfectModelEnsemble.set_control (Held d))).
  - intros x name w w' e.
    apply (guarded_store_state x
             (PredictionEnsemble.initialized ∘ HindcastEnsemble.base)
             (λ d, HindcastEnsemble.set_reference name d)).
  - intros x w w' e.
    apply (guarded_store_state x
             (PredictionEnsemble.initialized ∘ HindcastEnsemble.base)
             (λ d, HindcastEnsemble.set_uninitialized (Held d))).
Qed.

(** * Loops that fill a dict *)

Section dict_loops.
Context {X V : Type} (key : X → string) (val : X → V).

Lemma filled_lookup_other l acc k :
  k ∉ key <$> l → filled key val acc l !! k = acc !! k.
Proof.
  revert acc. induction l as [|x l IH]; intros acc; [done|].
  rewrite fmap_cons, not_elem_of_cons. intros [Hk Hl]. simpl.
  rewrite IH by done. by rewrite lookup_insert_ne.
Qed.

Lemma filled_lookup l acc x :
  NoDup (key <$> l) → x ∈ l → filled key val acc l !! key x = Some (val x).
Proof.
  revert acc. induction l as [|y l IH]; intros acc; [by intros _ ?%elem_of_nil|].
  rewrite fmap_cons, NoDup_cons. intros [Hy Hl] [->|Hx]%elem_of_cons; simpl.
  - rewrite filled_lookup_other by done. by rewrite lookup_insert_eq.
  - by apply IH.
Qed.

Lemma filled_dom l acc :
  dom (filled key val acc l) = dom acc ∪ list_to_set (key <$> l).
Proof.
  revert acc. induction l as [|x l IH]; intros acc; simpl.
  - set_solver.
  - rewrite IH, dom_insert_L. set_solver.
Qed.

(** A loop whose body stores one entry and logs one call. *)
Lemma for_in_filled {O} (call : X → ext.call)
    (body : gmap string V → string → M (world O) (gmap string V))
    (o : O) (l : list X) :
  (∀ acc x cs, x ∈ l →
     body acc (key x) (World o cs) =
       (Return (<[key x := val x]> acc), World o (cs ++ [call x]))) →
  ∀ acc cs,
    for_in (key <$> l) body acc (World o cs) =
      (Return (filled key val acc l), World o (cs ++ (call <$> l))).
Proof.
  induction l as [|x l IH]; intros Hbody acc cs; simpl.
  - by rewrite app_nil_r.
  - unfold mbind, M_bind. rewrite Hbody by left.
    rewrite IH by (intros; apply Hbody; by right).
    by rewrite <- app_assoc.
Qed.

End dict_loops.

Lemma filled_map_to_list {A V} (g : A → V) (m : gmap string A) :
  filled fst (g ∘ snd) ∅ (map_to_list m) = g <$> m.
Proof.
  apply map_eq. intros k. rewrite lookup_fmap.
  destruct (m !! k) as [a|] eqn:Hk; simpl.
  - apply elem_of_map_to_list in Hk.
    apply (filled_lookup fst (g ∘ snd) _ ∅ (k, a)); [|done].
    apply NoDup_fst_map_to_list.
  - rewrite filled_lookup_other; [done|].
    intros ((k' & a) & -> & Hin%elem_of_map_to_list)%list_elem_of_fmap.
    simpl in Hk. congruence.
Qed.

(** * Variables to drop *)

Lemma filter_ext_elem (P Q : string → Prop) `{∀ x, Decision (P x)}
    `{∀ x, Decision (Q x)} (l : list string) :
  (∀ x, x ∈ l → P x ↔ Q x) → filter P l = filter Q l.
Proof.
  induction l as [|x l IH]; intros HPQ; [done|].
  rewrite !filter_cons.
  rewrite IH by (intros; apply HPQ; by right).
  pose proof (HPQ x (list_elem_of_here _ _)) as Hx.
  destruct (decide (P x)) as [HP|HP], (decide (Q x)) as [HQ|HQ];
    first [done | exfalso; tauto].
Qed.

Lemma filter_not_elem_of_nil (l : list string) :
  filter (λ v, v ∉ @nil string) l = l.
Proof.
  induction l as [|x l IH]; [done|].
  rewrite filter_cons_True by apply not_elem_of_nil. by rewrite IH.
Qed.

Section vars_to_drop.
Context `{ext.Runtime}.

Lemma set_iter_NoDup (X : gset string) : NoDup (ext.set_iter X).
Proof. rewrite ext.set_iter_perm. apply NoDup_elements. Qed.

Lemma elem_of_set_iter (X : gset string) v : v ∈ ext.set_iter X ↔ v ∈ X.
Proof. rewrite ext.set_iter_perm. apply elem_of_elements. Qed.

Lemma pop_both_loop {S} (order iv rv : list string) (s : S) :
  NoDup order → NoDup iv → NoDup rv →
  (∀ v, v ∈ order → v ∈ iv ∧ v ∈ rv) →
  for_in order HindcastEnsemble.pop_both (iv, rv) s =
    (Return (filter (λ v, v ∉ order) iv, filter (λ v, v ∉ order) rv), s).
Proof.
  intros Ho. revert iv rv.
  induction Ho as [|v order Hv Ho IH]; intros iv rv Hiv Hrv Hin; simpl.
  - by rewrite !filter_not_elem_of_nil.
  - destruct (Hin v (list_elem_of_here _ _)) as [Hvi Hvr].
    destruct (py_index_pop v iv Hiv Hvi) as (i & Hi & Hpi).
    destruct (py_index_pop v rv Hrv Hvr) as (j & Hj & Hpj).
    unfold mbind, M_bind. simpl. rewrite Hi, Hj. simpl. rewrite Hpi, Hpj.
    rewrite IH.
    + rewrite !list_filter_filter. do 3 f_equal;
        apply list_filter_iff; intros x; rewrite not_elem_of_cons; tauto.
    + by apply NoDup_filter.
    + by apply NoDup_filter.
    + intros u Hu. destruct (Hin u (list_elem_of_further _ _ _ Hu)) as [? ?].
      rewrite !list_elem_of_filter. split_and!; try done; intros ->; done.
Qed.

End vars_to_drop.

Section hindcast_runs.
Context `{ext.Engines} `{ext.Runtime}.
Import PredictionEnsemble HindcastEnsemble.

Lemma vars_to_drop_run (w : world HindcastEnsemble.t) (ref : string)
    (init : bool) (chosen r : Dataset) :
  reference (self w) !! ref = Some r →
  chosen_side (self w) init = Held chosen →
  Dataset_wf chosen → Dataset_wf r →
  _vars_to_drop ref init w =
    (Return (filter (λ v, v ∉ data_vars r) (data_vars chosen),
             filter (λ v, v ∉ data_vars chosen) (data_vars r)), w).
Proof.
  intros Hr Hc Hwc Hwr.
  assert (for_in (ext.set_iter (py_set (data_vars r) ∩ py_set (data_vars chosen)))
            pop_both (data_vars chosen, data_vars r) w =
          (Return (filter (λ v, v ∉ data_vars r) (data_vars chosen),
                   filter (λ v, v ∉ data_vars chosen) (data_vars r)), w)) as Hloop.
  { rewrite pop_both_loop; try done.
    - do 3 f_equal; apply filter_ext_elem; intros v Hv;
        rewrite elem_of_set_iter, elem_of_intersection;
        unfold py_set; rewrite !elem_of_list_to_set; tauto.
    - apply set_iter_NoDup.
    - intros v. rewrite elem_of_set_iter, elem_of_intersection.
      unfold py_set. rewrite !elem_of_list_to_set. tauto. }
  unfold _vars_to_drop, reference_getitem, mbind, M_bind, getattr,
    chosen_side in *.
  destruct init; simpl in *.
  - injection Hc as <-. by rewrite Hr.
  - rewrite Hc. simpl. by rewrite Hr.
Qed.

Lemma drop_shared {S} (a b : Dataset) (s : S) :
  drop (filter (λ v, v ∉ data_vars b) (data_vars a)) a s =
    (Return (shared_with b a), s).
Proof.
  unfold drop.
  assert (forallb (λ v, bool_decide (v ∈ data_vars a))
            (filter (λ v, v ∉ data_vars b) (data_vars a)) = true) as ->.
  { apply forallb_forall. intros v Hv%list_elem_of_In%list_elem_of_filter.
    apply bool_decide_eq_true_2. tauto. }
  unfold mret, M_ret, shared_with. do 3 f_equal.
  apply filter_ext_elem. intros v Hv. rewrite list_elem_of_filter.
  destruct (decide (v ∈ data_vars b)); tauto.
Qed.

Lemma hindcast_for_run (o : HindcastEnsemble.t) (cs : list ext.call)
    (k metric comparison : string) (r : Dataset) :
  reference o !! k = Some r →
  Dataset_wf (initialized (base o)) → Dataset_wf r →
  hindcast_for k metric comparison (World o cs) =
    (Return (hindcast_result o metric comparison r),
     World o (cs ++ [hindcast_call o metric comparison r])).
Proof.
  intros Hr Hwi Hwr. unfold hindcast_for, mbind, M_bind.
  rewrite (vars_to_drop_run _ k true (initialized (base o)) r) by done.
  unfold getattr, reference_getitem, mbind, M_bind, getattr. simpl.
  rewrite drop_shared. simpl. rewrite Hr. simpl. by rewrite drop_shared.
Qed.

End hindcast_runs.

Lemma NoDup_only (a : string) (l : list string) :
  NoDup l → (∀ v, v ∈ l ↔ v = a) → l = [a].
Proof.
  intros Hl Hin. destruct l as [|x l].
  - exfalso. eapply not_elem_of_nil. by apply (Hin a).
  - assert (x = a) as -> by (apply Hin; left).
    destruct l as [|y l]; [done|]. exfalso.
    apply NoDup_cons in Hl as [Hl _]. apply Hl.
    assert (y = a) as -> by (apply Hin; right; left). left.
Qed.

Lemma no_elem_nil (l : list string) : (∀ v, v ∉ l) → l = [].
Proof. destruct l as [|x l]; [done|]. intros Hl. destruct (Hl x). left. Qed.

(** C5. For a stored reference and a chosen side (the initialized dataset,
    or the uninitialized dataset when [init=False]), [_vars_to_drop]
    returns, whatever the order in which the shared variables are visited,
    the variables of the chosen dataset that the reference lacks and the
    variables of the reference that the chosen dataset lacks; for
    variables [{SST, SALT}] against [{SST}] these are [['SALT']] and [[]]. *)
Theorem vars_to_drop_partition `{ext.Runtime} (w : world HindcastEnsemble.t)
    (ref : string) (init : bool) (chosen r : Dataset) :
  HindcastEnsemble.reference (self w) !! ref = Some r →
  chosen_side (self w) init = Held chosen →
  Dataset_wf chosen → Dataset_wf r →
  ∃ drop_chosen drop_ref,
    HindcastEnsemble._vars_to_drop ref init w = (Return (drop_chosen, drop_ref), w) ∧
    (∀ v, v ∈ drop_chosen ↔ v ∈ data_vars chosen ∧ v ∉ data_vars r) ∧
    (∀ v, v ∈ drop_ref ↔ v ∈ data_vars r ∧ v ∉ data_vars chosen) ∧
    ((∀ v, v ∈ data_vars chosen ↔ v = "SST" ∨ v = "SALT") →
     (∀ v, v ∈ data_vars r ↔ v = "SST") →
     drop_chosen = ["SALT"] ∧ drop_ref = []).
Proof.
  intros Hr Hc Hwc Hwr. do 2 eexists. split_and!.
  - by apply vars_to_drop_run.
  - intros v. rewrite list_elem_of_filter. tauto.
  - intros v. rewrite list_elem_of_filter. tauto.
  - intros Hcv Hrv. split.
    + apply NoDup_only; [by apply NoDup_filter|].
      intros v. rewrite list_elem_of_filter, Hcv, Hrv.
      split; [intros [? [?|?]]; congruence|intros ->; split; [done|by right]].
    + apply no_elem_nil. intros v.
      rewrite list_elem_of_filter, Hcv, Hrv. intros [Hn ->]. apply Hn. by left.
Qed.

(** * HindcastEnsemble: comparing with references *)

Section hindcast_compute.
Context `{ext.Engines} `{ext.Runtime}.
Import PredictionEnsemble HindcastEnsemble.

Lemma size_pos_lookup {A} (m : gmap string A) k a :
  m !! k = Some a → (size m =? 0)%nat = false.
Proof.
  intros Hk. apply Nat.eqb_neq. intros Hz%map_size_empty_inv.
  subst m. by rewrite lookup_empty in Hk.
Qed.

Lemma compute_metric_empty (o : HindcastEnsemble.t) cs refname metric comparison :
  reference o = ∅ →
  compute_metric refname metric comparison (World o cs) =
    (Raise DatasetError, World o cs).
Proof.
  intros He. unfold compute_metric, mbind, M_bind, getattr. simpl.
  by rewrite He, map_size_empty.
Qed.

Lemma compute_metric_named (o : HindcastEnsemble.t) cs k r metric comparison :
  hindcast_wf o → reference o !! k = Some r →
  compute_metric (Some k) metric comparison (World o cs) =
    (Return (One (hindcast_result o metric comparison r)),
     World o (cs ++ [hindcast_call o metric comparison r])).
Proof.
  intros [Hwi Hwr] Hk. unfold compute_metric, mbind, M_bind, getattr. simpl.
  rewrite (size_pos_lookup _ _ _ Hk). simpl.
  rewrite (hindcast_for_run o cs k metric comparison r) by eauto. done.
Qed.

Lemma single_reference {A} (m : gmap string A) k a :
  size m = 1 → m !! k = Some a → map_to_list m = [(k, a)].
Proof.
  intros Hs Hk. apply elem_of_map_to_list in Hk.
  rewrite <- length_map_to_list in Hs.
  destruct (map_to_list m) as [|x [|y l]]; simplify_eq/=.
  by apply list_elem_of_singleton in Hk as ->.
Qed.

Lemma compute_metric_single (o : HindcastEnsemble.t) cs k r metric comparison :
  size (reference o) = 1 → reference o !! k = Some r →
  compute_metric None metric comparison (World o cs) =
    compute_metric (Some k) metric comparison (World o cs).
Proof.
  intros Hs Hk.
  unfold compute_metric, reference_keys, mbind, M_bind, getattr. simpl.
  rewrite Hs. simpl. by rewrite (single_reference _ k r).
Qed.

Lemma compute_metric_all (o : HindcastEnsemble.t) cs metric comparison :
  hindcast_wf o → (2 ≤ size (reference o))%nat →
  compute_metric None metric comparison (World o cs) =
    (Return (Many (hindcast_result o metric comparison <$> reference o)),
     World o (cs ++ (hindcast_call o metric comparison ∘ snd
                      <$> map_to_list (reference o)))).
Proof.
  intros [Hwi Hwr] Hs.
  unfold compute_metric, reference_keys, mbind, M_bind, getattr. simpl.
  destruct (size (reference o)) as [|[|n]] eqn:Hn; [lia..|]. simpl.
  rewrite (for_in_filled fst (hindcast_result o metric comparison ∘ snd)
             (hindcast_call o metric comparison ∘ snd)).
  - by rewrite filled_map_to_list.
  - intros acc [k r] cs' Hin%elem_of_map_to_list. simpl.
    unfold mbind, M_bind.
    by rewrite (hindcast_for_run o cs' k metric comparison r) by eauto.
Qed.

End hindcast_compute.

(** C1. [HindcastEnsemble.compute_metric]: with no reference it raises
    [DatasetError]; with [refname] omitted and exactly one reference it
    returns the single result of the hindcast engine for that reference,
    exactly as when called with that reference's name; with [refname]
    omitted and two or more references it returns a dict whose keys are
    the reference names, each value being the result for that name. *)
Theorem hindcast_compute_metric_dispatch `{ext.Engines} `{ext.Runtime}
    (w : world HindcastEnsemble.t) (metric comparison : string) :
  hindcast_wf (self w) →
  let o := self w in
  let refs := HindcastEnsemble.reference o in
  let run refname := HindcastEnsemble.compute_metric refname metric comparison w in
  (refs = ∅ → ∀ refname, run refname = (Raise DatasetError, w)) ∧
  (size refs = 1 → ∀ k r, refs !! k = Some r →
     run None = run (Some k) ∧
     run None = (Return (One (hindcast_result o metric comparison r)),
                 World o (calls w ++ [hindcast_call o metric comparison r]))) ∧
  ((2 ≤ size refs)%nat →
     ∃ skill w',
       run None = (Return (Many skill), w') ∧
       dom skill = dom refs ∧
       (∀ k r, refs !! k = Some r →
          skill !! k = Some (hindcast_result o metric comparison r) ∧
          (run (Some k)).1 = Return (One (hindcast_result o metric comparison r))) ∧
       self w' = o ∧
       ∃ cs, calls w' = calls w ++ cs ∧
             cs ≡ₚ (hindcast_call o metric comparison ∘ snd <$> map_to_list refs)).
Proof.
  destruct w as [o cs]. simpl. intros Hwf. split_and!.
  - intros He refname. by apply compute_metric_empty.
  - intros Hs k r Hk. rewrite (compute_metric_single o cs k r) by done.
    split; [done|]. by apply compute_metric_named.
  - intros Hs. do 2 eexists. split_and!.
    + by apply compute_metric_all.
    + by rewrite dom_fmap_L.
    + intros k r Hk. rewrite lookup_fmap, Hk. split; [done|].
      by rewrite (compute_metric_named o cs k r).
    + done.
    + by eexists.
Qed.

(** C6. With an uninitialized dataset present and no reference stored,
    [HindcastEnsemble.compute_uninitialized] called without [refname]
    raises nothing and returns the empty dict, calling no engine: only the
    presence of the uninitialized dataset is checked. *)
Theorem compute_uninitialized_without_references `{ext.Engines} `{ext.Runtime}
    (w : world HindcastEnsemble.t) (metric comparison : string) :
  py_len (PredictionEnsemble.uninitialized (HindcastEnsemble.base (self w))) ≠ 0 →
  HindcastEnsemble.reference (self w) = ∅ →
  HindcastEnsemble.compute_uninitialized None metric comparison w =
    (Return (Many ∅), w).
Proof.
  destruct w as [o cs]. simpl. intros Hlen%Nat.eqb_neq Hrefs.
  unfold HindcastEnsemble.compute_uninitialized, HindcastEnsemble.reference_keys,
    mbind, M_bind, getattr. simpl.
  rewrite Hlen. simpl. rewrite Hrefs, map_size_empty. simpl.
  by rewrite Hrefs, map_to_list_empty.
Qed.

(** * Persistence *)

Section persistence.
Context `{ext.Engines}.
Import PredictionEnsemble.

Lemma lead_size_run {S} (init : Dataset) (s : S) :
  "lead" ∈ dom (dims init) → ∃ n, lead_size init s = (Return n, s).
Proof. intros [n Hn]%elem_of_dom. exists n. unfold lead_size. by rewrite Hn. Qed.

Lemma pm_compute_persistence_run (o : PerfectModelEnsemble.t) cs c nlags metric :
  "lead" ∈ dom (dims (initialized (PerfectModelEnsemble.base o))) →
  PerfectModelEnsemble.control o = Held c → data_vars c ≠ [] →
  PerfectModelEnsemble.compute_persistence nlags metric (World o cs) =
    (Return (One (persistence_result (initialized (PerfectModelEnsemble.base o)) metric c)),
     World o (cs ++ [persistence_call (initialized (PerfectModelEnsemble.base o)) metric c])).
Proof.
  intros Hlead Hc Hne.
  unfold PerfectModelEnsemble.compute_persistence, mbind, M_bind, getattr. simpl.
  rewrite Hc. simpl. destruct (data_vars c) as [|v vs] eqn:Hv; [done|]. simpl.
  destruct nlags as [n|]; simpl; [done|].
  destruct (lead_size_run (initialized (PerfectModelEnsemble.base o)) (World o cs) Hlead)
    as [n ->]. done.
Qed.

Lemma hc_compute_persistence_named (o : HindcastEnsemble.t) cs k r nlags metric :
  "lead" ∈ dom (dims (initialized (HindcastEnsemble.base o))) →
  HindcastEnsemble.reference o !! k = Some r →
  HindcastEnsemble.compute_persistence (Some k) nlags metric (World o cs) =
    (Return (One (persistence_result (initialized (HindcastEnsemble.base o)) metric r)),
     World o (cs ++ [persistence_call (initialized (HindcastEnsemble.base o)) metric r])).
Proof.
  intros Hlead Hk.
  unfold HindcastEnsemble.compute_persistence, HindcastEnsemble.reference_getitem,
    mbind, M_bind, getattr. simpl.
  rewrite (size_pos_lookup _ _ _ Hk). simpl.
  destruct nlags as [n|]; simpl.
  - by rewrite Hk.
  - destruct (lead_size_run (initialized (HindcastEnsemble.base o)) (World o cs) Hlead)
      as [n ->]. simpl. by rewrite Hk.
Qed.

Lemma hc_compute_persistence_all (o : HindcastEnsemble.t) cs nlags metric :
  "lead" ∈ dom (dims (initialized (HindcastEnsemble.base o))) →
  HindcastEnsemble.reference o ≠ ∅ →
  HindcastEnsemble.compute_persistence None nlags metric (World o cs) =
    (Return (Many (persistence_result (initialized (HindcastEnsemble.base o)) metric
                     <$> HindcastEnsemble.reference o)),
     World o (cs ++ (persistence_call (initialized (HindcastEnsemble.base o)) metric ∘ snd
                       <$> map_to_list (HindcastEnsemble.reference o)))).
Proof.
  intros Hlead Hne%map_size_non_empty_iff%Nat.eqb_neq.
  unfold HindcastEnsemble.compute_persistence, HindcastEnsemble.reference_keys,
    mbind, M_bind, getattr. simpl.
  rewrite Hne. simpl.
  set (init := initialized (HindcastEnsemble.base o)).
  assert (∀ cs', for_in (map_to_list (HindcastEnsemble.reference o)).*1
            (λ (persistence : gmap string ext.Result) key,
               ref ← HindcastEnsemble.reference_getitem key;
               r ← logged (ext.ComputePersistence init (Held ref) metric)
                     (ext.compute_persistence init (Held ref) metric);
               mret (<[key := r]> persistence)) ∅ (World o cs') =
          (Return (persistence_result init metric <$> HindcastEnsemble.reference o),
           World o (cs' ++ (persistence_call init metric ∘ snd
                             <$> map_to_list (HindcastEnsemble.reference o))))) as Hloop.
  { intros cs'.
    rewrite (for_in_filled fst (persistence_result init metric ∘ snd)
               (persistence_call init metric ∘ snd)).
    - by rewrite filled_map_to_list.
    - intros acc [k r] cs'' Hin%elem_of_map_to_list. simpl.
      unfold HindcastEnsemble.reference_getitem, mbind, M_bind, getattr. simpl.
      by rewrite Hin. }
  destruct nlags as [n|]; simpl.
  - unfold mbind, M_bind in Hloop. by rewrite Hloop.
  - destruct (lead_size_run init (World o cs) Hlead) as [n ->]. simpl.
    unfold mbind, M_bind in Hloop. by rewrite Hloop.
Qed.

End persistence.

(** C2. [compute_persistence], on a [PerfectModelEnsemble] with a control
    and on a [HindcastEnsemble] with references, hands the persistence
    engine exactly the initialized dataset, the control or reference and
    the metric: both datasets in full, no variable dropped, and no lag
    count. Whatever [nlags] is given, the result and the calls are the
    same. *)
Theorem compute_persistence_delegation `{ext.Engines} (metric : string) :
  (∀ (w : world PerfectModelEnsemble.t) c,
     let init := PredictionEnsemble.initialized (PerfectModelEnsemble.base (self w)) in
     initialized_ok init →
     PerfectModelEnsemble.control (self w) = Held c → data_vars c ≠ [] →
     (∀ nlags,
        PerfectModelEnsemble.compute_persistence nlags metric w =
          (Return (One (ext.compute_persistence init (Held c) metric)),
           World (self w) (calls w ++ [ext.ComputePersistence init (Held c) metric]))) ∧
     (∀ nlags nlags',
        PerfectModelEnsemble.compute_persistence nlags metric w =
        PerfectModelEnsemble.compute_persistence nlags' metric w)) ∧
  (∀ (w : world HindcastEnsemble.t) k r,
     let init := PredictionEnsemble.initialized (HindcastEnsemble.base (self w)) in
     initialized_ok init →
     HindcastEnsemble.reference (self w) !! k = Some r →
     (∀ nlags,
        HindcastEnsemble.compute_persistence (Some k) nlags metric w =
          (Return (One (ext.compute_persistence init (Held r) metric)),
           World (self w) (calls w ++ [ext.ComputePersistence init (Held r) metric]))) ∧
     (∀ nlags nlags',
        HindcastEnsemble.compute_persistence (Some k) nlags metric w =
        HindcastEnsemble.compute_persistence (Some k) nlags' metric w)) ∧
  (∀ (w : world HindcastEnsemble.t),
     let init := PredictionEnsemble.initialized (HindcastEnsemble.base (self w)) in
     let refs := HindcastEnsemble.reference (self w) in
     initialized_ok init → refs ≠ ∅ →
     (∀ nlags,
        HindcastEnsemble.compute_persistence None nlags metric w =
          (Return (Many ((λ r, ext.compute_persistence init (Held r) metric) <$> refs)),
           World (self w)
             (calls w ++ ((λ kr, ext.ComputePersistence init (Held kr.2) metric)
                            <$> map_to_list refs)))) ∧
     (∀ nlags nlags',
        HindcastEnsemble.compute_persistence None nlags metric w =
        HindcastEnsemble.compute_persistence None nlags' metric w)).
Proof.
  split_and!.
  - intros [o cs] c init [_ Hlead] Hc Hne. simpl in *.
    assert (∀ nlags, PerfectModelEnsemble.compute_persistence nlags metric (World o cs) =
              (Return (One (ext.compute_persistence init (Held c) metric)),
               World o (cs ++ [ext.ComputePersistence init (Held c) metric]))) as Hrun
      by (intros; by apply pm_compute_persistence_run).
    split; [done|]. intros n n'. by rewrite !Hrun.
  - intros [o cs] k r init [_ Hlead] Hk. simpl in *.
    assert (∀ nlags, HindcastEnsemble.compute_persistence (Some k) nlags metric (World o cs) =
              (Return (One (ext.compute_persistence init (Held r) metric)),
               World o (cs ++ [ext.ComputePersistence init (Held r) metric]))) as Hrun
      by (intros; by apply hc_compute_persistence_named).
    split; [done|]. intros n n'. by rewrite !Hrun.
  - intros [o cs] init refs [_ Hlead] Hne. simpl in *.
    assert (∀ nlags, HindcastEnsemble.compute_persistence None nlags metric (World o cs) =
              (Return (Many ((λ r, ext.compute_persistence init (Held r) metric) <$> refs)),
               World o (cs ++ ((λ kr, ext.ComputePersistence init (Held kr.2) metric)
                                 <$> map_to_list refs)))) as Hrun
      by (intros; by apply hc_compute_persistence_all).
    split; [done|]. intros n n'. by rewrite !Hrun.
Qed.

(** * PerfectModelEnsemble *)

Section perfect_model.
Context `{ext.Engines}.
Import PredictionEnsemble PerfectModelEnsemble.

Lemma accepted_nonempty (init c : Dataset) : accepted init c → data_vars c ≠ [].
Proof.
  intros [_ Hshare] Hnil. apply Hshare. rewrite Hnil. unfold py_set. simpl.
  set_solver.
Qed.

Lemma accepted_shared (init c : Dataset) :
  accepted init c → ∃ v, v ∈ data_vars init ∧ v ∈ data_vars c.
Proof.
  intros [_ Hshare].
  destruct (decide (Exists (λ v, v ∈ data_vars c) (data_vars init))) as [He|Hn].
  - apply Exists_exists in He as (v & ? & ?). by exists v.
  - exfalso. apply Hshare, py_set_disjoint. intros v Hv Hc. apply Hn.
    apply Exists_exists. by exists v.
Qed.

Lemma pm_compute_metric_run (o : PerfectModelEnsemble.t) cs c metric comparison :
  control o = Held c → data_vars c ≠ [] →
  compute_metric metric comparison (World o cs) =
    (Return (One (ext.compute_perfect_model (Held (initialized (base o))) (Held c)
                    metric comparison)),
     World o (cs ++ [ext.ComputePerfectModel (Held (initialized (base o))) (Held c)
                       metric comparison])).
Proof.
  intros Hc Hne. unfold compute_metric, mbind, M_bind, getattr. simpl.
  rewrite Hc. simpl. by destruct (data_vars c).
Qed.

Lemma pm_compute_uninitialized_run (o : PerfectModelEnsemble.t) cs u metric comparison :
  uninitialized (base o) = Held u → data_vars u ≠ [] →
  compute_uninitialized metric comparison (World o cs) =
    (Return (One (ext.compute_perfect_model (Held u) (control o) metric comparison)),
     World o (cs ++ [ext.ComputePerfectModel (Held u) (control o) metric comparison])).
Proof.
  intros Hu Hne. unfold compute_uninitialized, mbind, M_bind, getattr. simpl.
  rewrite Hu. simpl. by destruct (data_vars u).
Qed.

Lemma pm_init_inv {S} (x : xobj) (s s' : S) (o : PerfectModelEnsemble.t) :
  PerfectModelEnsemble.__init__ x s = (Return o, s') →
  pm_inv o ∧ control o = EmptyDict ∧ uninitialized (base o) = EmptyDict.
Proof.
  unfold PerfectModelEnsemble.__init__, PredictionEnsemble.__init__,
    _check_prediction_ensemble_dimensions, mbind, M_bind.
  destruct (promote x s) as [[ds|e] s0]; [|done]. simpl.
  rewrite andb_true_r.
  destruct (bool_decide ("init" ∈ dom (dims ds))) eqn:Hi,
    (bool_decide ("lead" ∈ dom (dims ds))) eqn:Hl; simpl; try done.
  intros [= <- _]. apply bool_decide_eq_true_1 in Hi, Hl. by repeat split.
Qed.

Lemma pm_add_control_inv (x : xobj) (w w' : world PerfectModelEnsemble.t) r :
  pm_inv (self w) → add_control x w = (r, w') → pm_inv (self w').
Proof.
  intros Hinv. destruct r as [[]|e].
  2:{ intros Hrun.
      apply (guarded_store_state x (initialized ∘ base)
               (λ d, set_control (Held d))) in Hrun. by subst. }
  destruct x as [ds|[[n|] dd]]; [| |done].
  - unfold add_control.
    rewrite (guarded_store_run ds (initialized ∘ base)
               (λ d, set_control (Held d))) by apply Hinv.
    repeat case_bool_decide; try done. intros [= <-].
    destruct Hinv as [Hok _]. split; [exact Hok|]. simpl. by split.
  - change (add_control (IsDataArray (mkDataArray (Some n) dd)))
      with (add_control (IsDataset (mkDataset dd [n]))).
    unfold add_control. rewrite (guarded_store_run _ (initialized ∘ base)
               (λ d, set_control (Held d))) by apply Hinv.
    repeat case_bool_decide; try done. intros [= <-].
    destruct Hinv as [Hok _]. split; [exact Hok|]. simpl. by split.
Qed.

End perfect_model.

(** C8. On a [PerfectModelEnsemble], [compute_metric] and
    [compute_persistence] raise [DatasetError] while no control has been
    added and otherwise hand their arguments to their engine;
    [compute_uninitialized] raises [DatasetError] while no uninitialized
    dataset is present and otherwise hands it to the engine. A freshly
    constructed ensemble has neither, [add_control] leaves the
    uninitialized attribute as it is, and [generate_uninitialized] is what
    fills it. *)
Theorem perfect_model_requires_datasets `{ext.Engines}
    (w : world PerfectModelEnsemble.t) (metric comparison : string)
    (nlags : option nat) :
  pm_inv (self w) →
  let o := self w in
  let init := PredictionEnsemble.initialized (PerfectModelEnsemble.base o) in
  (PerfectModelEnsemble.control o = EmptyDict →
     PerfectModelEnsemble.compute_metric metric comparison w = (Raise DatasetError, w) ∧
     PerfectModelEnsemble.compute_persistence nlags metric w = (Raise DatasetError, w)) ∧
  (∀ c, PerfectModelEnsemble.control o = Held c →
     PerfectModelEnsemble.compute_metric metric comparison w =
       (Return (One (ext.compute_perfect_model (Held init) (Held c) metric comparison)),
        World o (calls w ++ [ext.ComputePerfectModel (Held init) (Held c) metric comparison])) ∧
     PerfectModelEnsemble.compute_persistence nlags metric w =
       (Return (One (ext.compute_persistence init (Held c) metric)),
        World o (calls w ++ [ext.ComputePersistence init (Held c) metric]))) ∧
  (PredictionEnsemble.uninitialized (PerfectModelEnsemble.base o) = EmptyDict →
     PerfectModelEnsemble.compute_uninitialized metric comparison w =
       (Raise DatasetError, w)) ∧
  (∀ u, PredictionEnsemble.uninitialized (PerfectModelEnsemble.base o) = Held u →
     data_vars u ≠ [] →
     PerfectModelEnsemble.compute_uninitialized metric comparison w =
       (Return (One (ext.compute_perfect_model (Held u) (PerfectModelEnsemble.control o)
                       metric comparison)),
        World o (calls w ++ [ext.ComputePerfectModel (Held u) (PerfectModelEnsemble.control o)
                               metric comparison]))) ∧
  (∀ (x : xobj) (o' : PerfectModelEnsemble.t),
     PerfectModelEnsemble.__init__ x () = (Return o', ()) →
     PerfectModelEnsemble.control o' = EmptyDict ∧
     PredictionEnsemble.uninitialized (PerfectModelEnsemble.base o') = EmptyDict) ∧
  (∀ (x : xobj) r w',
     PerfectModelEnsemble.add_control x w = (r, w') →
     PredictionEnsemble.uninitialized (PerfectModelEnsemble.base (self w')) =
     PredictionEnsemble.uninitialized (PerfectModelEnsemble.base o)) ∧
  PerfectModelEnsemble.generate_uninitialized None w =
    (Return (),
     World (PerfectModelEnsemble.set_uninitialized
              (Held (ext.bootstrap_uninit_pm_ensemble_from_control init
                       (PerfectModelEnsemble.control o))) o)
       (calls w ++ [ext.BootstrapUninit init (PerfectModelEnsemble.control o)])).
Proof.
  destruct w as [o cs]. simpl. intros [[Hinit Hlead] Hctrl]. split_and!.
  - intros Hc.
    unfold PerfectModelEnsemble.compute_metric,
      PerfectModelEnsemble.compute_persistence, mbind, M_bind, getattr.
    simpl. by rewrite Hc.
  - intros c Hc. rewrite Hc in Hctrl. apply accepted_nonempty in Hctrl. split.
    + by apply pm_compute_metric_run.
    + by apply pm_compute_persistence_run.
  - intros Hu.
    unfold PerfectModelEnsemble.compute_uninitialized, mbind, M_bind, getattr.
    simpl. by rewrite Hu.
  - intros u Hu Hne. by apply pm_compute_uninitialized_run.
  - intros x o' Hrun. by apply pm_init_inv in Hrun as (_ & ? & ?).
  - intros x r w' Hrun.
    destruct (guarded_store_cases x
                (PredictionEnsemble.initialized ∘ PerfectModelEnsemble.base)
                (λ d, PerfectModelEnsemble.set_control (Held d)) (World o cs))
      as [[e He]|[ds Hds]].
    + unfold PerfectModelEnsemble.add_control in Hrun.
      rewrite He in Hrun. by injection Hrun as _ <-.
    + unfold PerfectModelEnsemble.add_control in Hrun.
      rewrite Hds in Hrun. by injection Hrun as _ <-.
  - done.
Qed.

(** * Bootstrapping *)

Section bootstrap.
Context `{ext.Engines}.
Import PredictionEnsemble PerfectModelEnsemble.

Lemma length_nonzero (l : list string) : l ≠ [] → (length l =? 0)%nat = false.
Proof. by destruct l. Qed.

Lemma bootstrap_named (o : PerfectModelEnsemble.t) cs c v metric comparison
    sig boot pers_sig :
  control o = Held c → data_vars c ≠ [] →
  v ∈ data_vars (initialized (base o)) → v ∈ data_vars c →
  bootstrap (Some v) metric comparison sig boot pers_sig (World o cs) =
    (Return (One (bootstrap_result (initialized (base o)) c metric comparison
                    sig boot pers_sig v)),
     World o (cs ++ [bootstrap_call (initialized (base o)) c metric comparison
                       sig boot pers_sig v])).
Proof.
  intros Hc Hne Hvi Hvc.
  unfold bootstrap, getitem, mbind, M_bind, getattr. simpl.
  rewrite Hc. simpl. rewrite (length_nonzero _ Hne). simpl.
  rewrite (bool_decide_eq_true_2 _ Hvi). simpl.
  unfold getitem. by rewrite (bool_decide_eq_true_2 _ Hvc).
Qed.

Lemma bootstrap_only_variable (o : PerfectModelEnsemble.t) cs c v metric comparison
    sig boot pers_sig :
  control o = Held c → data_vars c ≠ [] →
  data_vars (initialized (base o)) = [v] → v ∈ data_vars c →
  bootstrap None metric comparison sig boot pers_sig (World o cs) =
    (Return (One (bootstrap_result (initialized (base o)) c metric comparison
                    sig boot pers_sig v)),
     World o (cs ++ [bootstrap_call (initialized (base o)) c metric comparison
                       sig boot pers_sig v])).
Proof.
  intros Hc Hne Hvi Hvc.
  unfold bootstrap, getitem, mbind, M_bind, getattr. simpl.
  rewrite Hc. simpl. rewrite (length_nonzero _ Hne). simpl.
  rewrite Hvi. simpl.
  rewrite (bool_decide_eq_true_2 (v ∈ [v])) by left. simpl.
  unfold getitem. by rewrite (bool_decide_eq_true_2 _ Hvc).
Qed.

Lemma bootstrap_all (o : PerfectModelEnsemble.t) cs c metric comparison
    sig boot pers_sig :
  control o = Held c → data_vars c ≠ [] →
  length (data_vars (initialized (base o))) ≠ 1 →
  (∀ v, v ∈ data_vars c → v ∈ data_vars (initialized (base o))) →
  bootstrap None metric comparison sig boot pers_sig (World o cs) =
    (Return (Many (filled id (bootstrap_result (initialized (base o)) c metric
                                comparison sig boot pers_sig) ∅ (data_vars c))),
     World o (cs ++ (bootstrap_call (initialized (base o)) c metric comparison
                       sig boot pers_sig <$> data_vars c))).
Proof.
  intros Hc Hne Hlen%Nat.eqb_neq Hsub.
  unfold bootstrap, mbind, M_bind, getattr. simpl.
  rewrite Hc. simpl. rewrite (length_nonzero _ Hne). simpl.
  rewrite Hlen. simpl.
  rewrite <- (list_fmap_id (data_vars c)) at 1.
  rewrite (for_in_filled id
             (bootstrap_result (initialized (base o)) c metric comparison sig boot pers_sig)
             (bootstrap_call (initialized (base o)) c metric comparison sig boot pers_sig)).
  - done.
  - intros acc v cs' Hv. unfold getitem, mbind, M_bind. simpl.
    rewrite (bool_decide_eq_true_2 _ (Hsub v Hv)). simpl.
    unfold getitem. by rewrite (bool_decide_eq_true_2 _ Hv).
Qed.

End bootstrap.

(** C3, as the code has it. On a [PerfectModelEnsemble] with a control,
    [bootstrap] with [var] naming a data variable of both datasets calls
    the bootstrap engine once, on that variable of the initialized dataset
    and of the control, and returns its result; with [var=None] and exactly
    one data variable in the initialized dataset it does the same for that
    variable; with [var=None] otherwise, and every data variable of the
    control also a data variable of the initialized dataset, it calls the
    engine once per data variable of the control and returns a dict whose
    keys are the control's variable names. *)
Theorem bootstrap_dispatch `{ext.Engines} (w : world PerfectModelEnsemble.t)
    (c : Dataset) (metric comparison : string) (sig boot : Z) (pers_sig : option Z) :
  pm_inv (self w) →
  PerfectModelEnsemble.control (self w) = Held c →
  Dataset_wf c →
  let o := self w in
  let init := PredictionEnsemble.initialized (PerfectModelEnsemble.base o) in
  let run var := PerfectModelEnsemble.bootstrap var metric comparison sig boot pers_sig w in
  let result := bootstrap_result init c metric comparison sig boot pers_sig in
  let call := bootstrap_call init c metric comparison sig boot pers_sig in
  (∀ v, v ∈ data_vars init → v ∈ data_vars c →
     run (Some v) = (Return (One (result v)), World o (calls w ++ [call v]))) ∧
  (∀ v, data_vars init = [v] →
     run None = (Return (One (result v)), World o (calls w ++ [call v]))) ∧
  (length (data_vars init) ≠ 1 →
   (∀ v, v ∈ data_vars c → v ∈ data_vars init) →
   ∃ d,
     run None = (Return (Many d), World o (calls w ++ (call <$> data_vars c))) ∧
     dom d = list_to_set (data_vars c) ∧
     ∀ v, v ∈ data_vars c → d !! v = Some (result v)).
Proof.
  destruct w as [o cs]. simpl. intros [Hok Hacc] Hc Hwf. rewrite Hc in Hacc.
  pose proof (accepted_nonempty _ _ Hacc) as Hne. split_and!.
  - intros v Hvi Hvc. by apply bootstrap_named.
  - intros v Hv. apply bootstrap_only_variable; try done.
    destruct (accepted_shared _ _ Hacc) as (u & Hui & Huc).
    rewrite Hv in Hui. by apply list_elem_of_singleton in Hui as ->.
  - intros Hlen Hsub. eexists. split_and!.
    + by apply bootstrap_all.
    + rewrite filled_dom, list_fmap_id. set_solver.
    + intros v Hv.
      apply (filled_lookup id
               (bootstrap_result (PredictionEnsemble.initialized
                                    (PerfectModelEnsemble.base o)) c metric comparison
                  sig boot pers_sig) (data_vars c) ∅ v); [|done].
      by rewrite list_fmap_id.
Qed.

(** * Methods that only observe *)

Section observing.
Context {O : Type}.

Lemma observes_ret {A} (a : A) : observes (O:=O) (mret a).
Proof. intros w. done. Qed.

Lemma observes_raise {A} (e : exn) : observes (O:=O) (A:=A) (raise e).
Proof. intros w. done. Qed.

Lemma observes_getattr {A} (f : O → A) : observes (getattr f).
Proof. intros w. done. Qed.

Lemma observes_logged {A} (c : ext.call) (r : A) : observes (O:=O) (logged c r).
Proof. intros w. split; [done|]. by apply prefix_app_r. Qed.

Lemma observes_bind {A B} (m : M (world O) A) (k : A → M (world O) B) :
  observes m → (∀ a, observes (k a)) → observes (m ≫= k).
Proof.
  intros Hm Hk w. unfold mbind, M_bind.
  destruct (Hm w) as [Hs Hc]. destruct (m w) as [[a|e] w1]; simpl in *.
  - destruct (Hk a w1) as [Hs' Hc']. split; [congruence|by etrans].
  - done.
Qed.

(** A step that leaves the whole state alone. *)
Lemma observes_pure {A} (m : M (world O) A) :
  (∀ w, (m w).2 = w) → observes m.
Proof. intros Hm w. by rewrite Hm. Qed.

Lemma observes_for_in {A B} (l : list A) (body : B → A → M (world O) B) acc :
  (∀ acc x, observes (body acc x)) → observes (for_in l body acc).
Proof.
  intros Hbody. revert acc. induction l as [|x l IH]; intros acc; simpl.
  - apply observes_ret.
  - apply observes_bind; [apply Hbody|]. intros acc'. apply IH.
Qed.

End observing.

Lemma to_dataset_state {S} (da : DataArray) (s : S) : (to_dataset da s).2 = s.
Proof. unfold to_dataset. by destruct (name da). Qed.

Lemma drop_state {S} (labels : list string) (ds : Dataset) (s : S) :
  (drop labels ds s).2 = s.
Proof. unfold drop. by case_match. Qed.

Lemma getitem_state {S} (ds : Dataset) (var : string) (s : S) :
  (getitem ds var s).2 = s.
Proof. unfold getitem. by case_match. Qed.

Lemma slot_getitem_state {S} (x : slot) (var : string) (s : S) :
  (slot_getitem x var s).2 = s.
Proof. destruct x; [done|]. apply getitem_state. Qed.

Lemma slot_data_vars_state {S} (x : slot) (s : S) : (slot_data_vars x s).2 = s.
Proof. by destruct x. Qed.

Lemma slot_drop_state {S} (labels : list string) (x : slot) (s : S) :
  (slot_drop labels x s).2 = s.
Proof. destruct x; [done|]. apply drop_state. Qed.

Lemma lead_size_state {S} (ds : Dataset) (s : S) : (lead_size ds s).2 = s.
Proof. unfold lead_size. by case_match. Qed.

Lemma pop_both_state {S} (acc : list string * list string) (var : string) (s : S) :
  (HindcastEnsemble.pop_both acc var s).2 = s.
Proof.
  destruct acc as [iv rv]. unfold HindcastEnsemble.pop_both.
  by repeat case_match.
Qed.

(** Closes [observes] goals by following the shape of the method. *)
Ltac observe :=
  repeat first
    [ apply observes_ret
    | apply observes_raise
    | apply observes_getattr
    | apply observes_logged
    | apply observes_for_in; intros
    | apply observes_pure; intros;
        first [ apply drop_state | apply getitem_state | apply slot_getitem_state
              | apply slot_data_vars_state | apply slot_drop_state
              | apply lead_size_state | apply pop_both_state
              | apply to_dataset_state ]
    | apply observes_bind; [|intros]
    | match goal with
      | |- observes (match ?x with _ => _ end) => destruct x
      | |- observes (let '(_, _) := ?x in _) => destruct x
      end ].

Section read_only.
Context `{ext.Engines} `{ext.Runtime}.

Lemma reference_getitem_observes (key : string) :
  observes (HindcastEnsemble.reference_getitem key).
Proof. unfold HindcastEnsemble.reference_getitem. observe. Qed.

Lemma reference_keys_observes : observes HindcastEnsemble.reference_keys.
Proof. unfold HindcastEnsemble.reference_keys. observe. Qed.

Lemma vars_to_drop_observes (ref : string) (init : bool) :
  observes (HindcastEnsemble._vars_to_drop ref init).
Proof.
  unfold HindcastEnsemble._vars_to_drop.
  apply observes_bind; [destruct init; observe|]. intros iv.
  apply observes_bind; [apply reference_getitem_observes|]. intros r. observe.
Qed.

Lemma hindcast_for_observes (refname metric comparison : string) :
  observes (HindcastEnsemble.hindcast_for refname metric comparison).
Proof.
  unfold HindcastEnsemble.hindcast_for.
  apply observes_bind; [apply vars_to_drop_observes|]. intros [di dr].
  apply observes_bind; [observe|]. intros init.
  apply observes_bind; [observe|]. intros i.
  apply observes_bind; [apply reference_getitem_observes|]. intros r. observe.
Qed.

Lemma uninitialized_for_observes (refname metric comparison : string) :
  observes (HindcastEnsemble.uninitialized_for refname metric comparison).
Proof.
  unfold HindcastEnsemble.uninitialized_for.
  apply observes_bind; [apply vars_to_drop_observes|]. intros [di dr].
  apply observes_bind; [observe|]. intros init.
  apply observes_bind; [observe|]. intros i.
  apply observes_bind; [apply reference_getitem_observes|]. intros r. observe.
Qed.

End read_only.

Ltac observe_method :=
  repeat first
    [ apply reference_getitem_observes
    | apply reference_keys_observes
    | apply vars_to_drop_observes
    | apply hindcast_for_observes
    | apply uninitialized_for_observes
    | progress observe
    | progress cbv beta ].

Section method_observations.
Context `{ext.Engines} `{ext.Runtime}.

Lemma hc_compute_metric_observes refname metric comparison :
  observes (HindcastEnsemble.compute_metric refname metric comparison).
Proof. unfold HindcastEnsemble.compute_metric. observe_method. Qed.

Lemma hc_compute_uninitialized_observes refname metric comparison :
  observes (HindcastEnsemble.compute_uninitialized refname metric comparison).
Proof. unfold HindcastEnsemble.compute_uninitialized. observe_method. Qed.

Lemma hc_compute_persistence_observes refname nlags metric :
  observes (HindcastEnsemble.compute_persistence refname nlags metric).
Proof. unfold HindcastEnsemble.compute_persistence. observe_method. Qed.

Lemma pm_compute_metric_observes metric comparison :
  observes (PerfectModelEnsemble.compute_metric metric comparison).
Proof. unfold PerfectModelEnsemble.compute_metric. observe_method. Qed.

Lemma pm_compute_uninitialized_observes metric comparison :
  observes (PerfectModelEnsemble.compute_uninitialized metric comparison).
Proof. unfold PerfectModelEnsemble.compute_uninitialized. observe_method. Qed.

Lemma pm_compute_persistence_observes nlags metric :
  observes (PerfectModelEnsemble.compute_persistence nlags metric).
Proof. unfold PerfectModelEnsemble.compute_persistence. observe_method. Qed.

Lemma pm_bootstrap_observes var metric comparison sig boot pers_sig :
  observes (PerfectModelEnsemble.bootstrap var metric comparison sig boot pers_sig).
Proof. unfold PerfectModelEnsemble.bootstrap. observe_method. Qed.

End method_observations.

(** X1. The computing methods of both classes only read the ensemble:
    whatever the arguments and whether they return or raise, the object is
    left exactly as it was, and the engine calls made before are still the
    beginning of the call log. *)
Theorem computing_methods_only_observe `{ext.Engines} `{ext.Runtime} :
  (∀ ref init, observes (HindcastEnsemble._vars_to_drop ref init)) ∧
  (∀ refname metric comparison,
     observes (HindcastEnsemble.compute_metric refname metric comparison)) ∧
  (∀ refname metric comparison,
     observes (HindcastEnsemble.compute_uninitialized refname metric comparison)) ∧
  (∀ refname nlags metric,
     observes (HindcastEnsemble.compute_persistence refname nlags metric)) ∧
  (∀ refname, observes (HindcastEnsemble.compute_horizon refname)) ∧
  (∀ metric comparison,
     observes (PerfectModelEnsemble.compute_metric metric comparison)) ∧
  (∀ metric comparison,
     observes (PerfectModelEnsemble.compute_uninitialized metric comparison)) ∧
  (∀ nlags metric,
     observes (PerfectModelEnsemble.compute_persistence nlags metric)) ∧
  (∀ var metric comparison sig boot pers_sig,
     observes (PerfectModelEnsemble.bootstrap var metric comparison sig boot pers_sig)).
Proof.
  split_and!; intros.
  - apply vars_to_drop_observes.
  - apply hc_compute_metric_observes.
  - apply hc_compute_uninitialized_observes.
  - apply hc_compute_persistence_observes.
  - unfold HindcastEnsemble.compute_horizon. apply observes_raise.
  - apply pm_compute_metric_observes.
  - apply pm_compute_uninitialized_observes.
  - apply pm_compute_persistence_observes.
  - apply pm_bootstrap_observes.
Qed.

(** * HindcastEnsemble: the uninitialized ensemble against references *)

Section uninitialized_compute.
Context `{ext.Engines} `{ext.Runtime}.
Import PredictionEnsemble HindcastEnsemble.

Lemma uninitialized_for_run (o : HindcastEnsemble.t) (cs : list ext.call)
    (k metric comparison : string) (u r : Dataset) :
  uninitialized (base o) = Held u → reference o !! k = Some r →
  Dataset_wf u → Dataset_wf r →
  uninitialized_for k metric comparison (World o cs) =
    (Return (uninitialized_result u metric comparison r),
     World o (cs ++ [uninitialized_call u metric comparison r])).
Proof.
  intros Hu Hr Hwu Hwr. unfold uninitialized_for, mbind, M_bind.
  rewrite (vars_to_drop_run _ k false u r) by done.
  unfold getattr, reference_getitem, mbind, M_bind, getattr. simpl.
  rewrite Hu. simpl. rewrite drop_shared. simpl. rewrite Hr. simpl.
  by rewrite drop_shared.
Qed.

Lemma hc_compute_uninitialized_absent (o : HindcastEnsemble.t) cs refname
    metric comparison :
  py_len (uninitialized (base o)) = 0 →
  compute_uninitialized refname metric comparison (World o cs) =
    (Raise DatasetError, World o cs).
Proof.
  intros Hlen. unfold compute_uninitialized, mbind, M_bind, getattr. simpl.
  by rewrite Hlen.
Qed.

Lemma hc_compute_uninitialized_named (o : HindcastEnsemble.t) cs k u r
    metric comparison :
  uninitialized (base o) = Held u → data_vars u ≠ [] →
  reference o !! k = Some r → Dataset_wf u → Dataset_wf r →
  compute_uninitialized (Some k) metric comparison (World o cs) =
    (Return (One (uninitialized_result u metric comparison r)),
     World o (cs ++ [uninitialized_call u metric comparison r])).
Proof.
  intros Hu Hne Hk Hwu Hwr.
  unfold compute_uninitialized, mbind, M_bind, getattr. simpl.
  rewrite Hu. simpl. rewrite (length_nonzero _ Hne). simpl.
  by rewrite (uninitialized_for_run o cs k metric comparison u r).
Qed.

Lemma hc_compute_uninitialized_single (o : HindcastEnsemble.t) cs k r
    metric comparison :
  size (reference o) = 1 → reference o !! k = Some r →
  compute_uninitialized None metric comparison (World o cs) =
    compute_uninitialized (Some k) metric comparison (World o cs).
Proof.
  intros Hs Hk.
  unfold compute_uninitialized, reference_keys, mbind, M_bind, getattr. simpl.
  destruct (py_len (uninitialized (base o)) =? 0)%nat; simpl; [done|].
  rewrite Hs. simpl. by rewrite (single_reference _ k r).
Qed.

Lemma hc_compute_uninitialized_all (o : HindcastEnsemble.t) cs u metric comparison :
  uninitialized (base o) = Held u → data_vars u ≠ [] → Dataset_wf u →
  map_Forall (λ _ r, Dataset_wf r) (reference o) →
  size (reference o) ≠ 1 →
  compute_uninitialized None metric comparison (World o cs) =
    (Return (Many (uninitialized_result u metric comparison <$> reference o)),
     World o (cs ++ (uninitialized_call u metric comparison ∘ snd
                      <$> map_to_list (reference o)))).
Proof.
  intros Hu Hne Hwu Hwr Hs%Nat.eqb_neq.
  unfold compute_uninitialized, reference_keys, mbind, M_bind, getattr. simpl.
  rewrite Hu. simpl. rewrite (length_nonzero _ Hne). simpl. rewrite Hs. simpl.
  rewrite (for_in_filled fst (uninitialized_result u metric comparison ∘ snd)
             (uninitialized_call u metric comparison ∘ snd)).
  - by rewrite filled_map_to_list.
  - intros acc [k r] cs' Hin%elem_of_map_to_list. simpl.
    unfold mbind, M_bind.
    by rewrite (uninitialized_for_run o cs' k metric comparison u r) by eauto.
Qed.

End uninitialized_compute.

(** X2. [HindcastEnsemble.compute_uninitialized] raises [DatasetError]
    while no uninitialized dataset is present, whatever [refname] is. With
    one present: for a stored [refname] it returns the single result of the
    engine on the uninitialized dataset and that reference, each restricted
    to the variables they share; with [refname] omitted and exactly one
    reference it does the same for that reference; with [refname] omitted
    otherwise it returns a dict with one such result per reference name. *)
Theorem hindcast_compute_uninitialized_dispatch `{ext.Engines} `{ext.Runtime}
    (w : world HindcastEnsemble.t) (metric comparison : string) :
  map_Forall (λ _ r, Dataset_wf r) (HindcastEnsemble.reference (self w)) →
  let o := self w in
  let refs := HindcastEnsemble.reference o in
  let run refname := HindcastEnsemble.compute_uninitialized refname metric comparison w in
  (py_len (PredictionEnsemble.uninitialized (HindcastEnsemble.base o)) = 0 →
     ∀ refname, run refname = (Raise DatasetError, w)) ∧
  (∀ u, PredictionEnsemble.uninitialized (HindcastEnsemble.base o) = Held u →
     data_vars u ≠ [] → Dataset_wf u →
     let result r := ext.compute_uninitialized (shared_with r u) (shared_with u r)
                       metric comparison in
     let call r := ext.ComputeUninitialized (shared_with r u) (shared_with u r)
                     metric comparison in
     (∀ k r, refs !! k = Some r →
        run (Some k) = (Return (One (result r)), World o (calls w ++ [call r])) ∧
        (size refs = 1 → run None = run (Some k))) ∧
     (size refs ≠ 1 →
        run None = (Return (Many (result <$> refs)),
                    World o (calls w ++ (call ∘ snd <$> map_to_list refs))))).
Proof.
  destruct w as [o cs]. simpl. intros Hwr. split.
  - intros Hlen refname. by apply hc_compute_uninitialized_absent.
  - intros u Hu Hne Hwu. split.
    + intros k r Hk. split.
      * apply hc_compute_uninitialized_named; try done. by apply (Hwr k).
      * intros Hs. by apply (hc_compute_uninitialized_single o cs k r).
    + intros Hs. by apply hc_compute_uninitialized_all.
Qed.

(** X3. A reference name that is not stored is a [KeyError] carrying that
    name: from [_vars_to_drop], from [compute_metric] (once some reference
    exists), from [compute_uninitialized] (once an uninitialized dataset
    is present) and from [compute_persistence] (once some reference exists),
    in each case with the ensemble unchanged and no engine called.
    [_vars_to_drop] with [init=False] and no uninitialized dataset fails
    earlier, with an [AttributeError]. *)
Theorem unknown_reference_name `{ext.Engines} `{ext.Runtime}
    (w : world HindcastEnsemble.t) (k : string) :
  let o := self w in
  let init := PredictionEnsemble.initialized (HindcastEnsemble.base o) in
  let uninit := PredictionEnsemble.uninitialized (HindcastEnsemble.base o) in
  let refs := HindcastEnsemble.reference o in
  (refs !! k = None →
     HindcastEnsemble._vars_to_drop k true w = (Raise (KeyError k), w) ∧
     (py_len uninit ≠ 0 →
        HindcastEnsemble._vars_to_drop k false w = (Raise (KeyError k), w)) ∧
     (refs ≠ ∅ → ∀ metric comparison,
        HindcastEnsemble.compute_metric (Some k) metric comparison w =
          (Raise (KeyError k), w)) ∧
     (py_len uninit ≠ 0 → ∀ metric comparison,
        HindcastEnsemble.compute_uninitialized (Some k) metric comparison w =
          (Raise (KeyError k), w)) ∧
     (refs ≠ ∅ → "lead" ∈ dom (dims init) → ∀ nlags metric,
        HindcastEnsemble.compute_persistence (Some k) nlags metric w =
          (Raise (KeyError k), w))) ∧
  (uninit = EmptyDict →
     HindcastEnsemble._vars_to_drop k false w =
       (Raise (AttributeError "data_vars"), w)).
Proof.
  destruct w as [o cs]. simpl. split.
  - intros Hk.
    assert (HindcastEnsemble._vars_to_drop k true (World o cs) =
              (Raise (KeyError k), World o cs)) as Htrue.
    { unfold HindcastEnsemble._vars_to_drop, HindcastEnsemble.reference_getitem,
        mbind, M_bind, getattr. simpl. by rewrite Hk. }
    assert (py_len (PredictionEnsemble.uninitialized (HindcastEnsemble.base o)) ≠ 0 →
            HindcastEnsemble._vars_to_drop k false (World o cs) =
              (Raise (KeyError k), World o cs)) as Hfalse.
    { intros Hlen.
      unfold HindcastEnsemble._vars_to_drop, HindcastEnsemble.reference_getitem,
        mbind, M_bind, getattr. simpl.
      destruct (PredictionEnsemble.uninitialized (HindcastEnsemble.base o));
        [done|]. simpl. by rewrite Hk. }
    split_and!; [done..| | |].
    + intros Hne%map_size_non_empty_iff%Nat.eqb_neq metric comparison.
      unfold HindcastEnsemble.compute_metric, HindcastEnsemble.hindcast_for,
        mbind, M_bind, getattr. simpl.
      rewrite Hne. simpl. unfold mbind, M_bind in Htrue. by rewrite Htrue.
    + intros Hlen metric comparison.
      unfold HindcastEnsemble.compute_uninitialized,
        HindcastEnsemble.uninitialized_for, mbind, M_bind, getattr. simpl.
      rewrite (proj2 (Nat.eqb_neq _ _) Hlen). simpl.
      specialize (Hfalse Hlen). unfold mbind, M_bind in Hfalse. by rewrite Hfalse.
    + intros Hne%map_size_non_empty_iff%Nat.eqb_neq Hlead nlags metric.
      unfold HindcastEnsemble.compute_persistence,
        HindcastEnsemble.reference_getitem, mbind, M_bind, getattr. simpl.
      rewrite Hne. simpl.
      destruct nlags as [n|]; simpl.
      * by rewrite Hk.
      * destruct (lead_size_run
                    (PredictionEnsemble.initialized (HindcastEnsemble.base o))
                    (World o cs) Hlead) as [n ->]. simpl. by rewrite Hk.
  - intros Hu.
    unfold HindcastEnsemble._vars_to_drop, mbind, M_bind, getattr. simpl.
    by rewrite Hu.
Qed.


(** * Storing datasets *)








Lemma guarded_store_unnamed_array {O} (d : gmap string nat)
    (get_init : O → Dataset) (store : Dataset → O → O) (w : world O) :
  (xobj ← promote (IsDataArray (mkDataArray None d));
   init ← getattr get_init;
   _check_reference_dimensions init xobj;;
   _check_reference_vars_match_initialized init xobj;;
   setattr (store xobj)) w = (Raise ValueError, w).
Proof. done. Qed.


(** * Invariants *)

Lemma guarded_store_outcome {O} (x : xobj) (get_init : O → Dataset)
    (store : Dataset → O → O) (w : world O) :
  "init" ∈ dom (dims (get_init (self w))) →
  let r := (xobj ← promote x;
            init ← getattr get_init;
            _check_reference_dimensions init xobj;;
            _check_reference_vars_match_initialized init xobj;;
            setattr (store xobj)) w in
  r.2 = w ∨
  ∃ ds, accepted (get_init (self w)) ds ∧
        r = (Return (), World (store ds (self w)) (calls w)).
Proof.
  intros Hinit r. subst r.
  assert (∀ ds,
    let r := (xobj ← promote (IsDataset ds);
              init ← getattr get_init;
              _check_reference_dimensions init xobj;;
              _check_reference_vars_match_initialized init xobj;;
              setattr (store xobj)) w in
    r.2 = w ∨
    ∃ ds, accepted (get_init (self w)) ds ∧
          r = (Return (), World (store ds (self w)) (calls w))) as Hds.
  { intros ds r. subst r. rewrite guarded_store_run by done.
    case_bool_decide as Hdims; [case_bool_decide as Hvars|]; simpl.
    - by left.
    - right. exists ds. by split.
    - by left. }
  destruct x as [ds|[[n|] d]].
  - apply Hds.
  - apply (Hds (mkDataset d [n])).
  - by left.
Qed.

Section invariants.
Context `{ext.Engines} `{ext.Runtime}.

Lemma generate_uninitialized_keeps (var : option string)
    (w : world PerfectModelEnsemble.t) :
  let w' := (PerfectModelEnsemble.generate_uninitialized var w).2 in
  PredictionEnsemble.initialized (PerfectModelEnsemble.base (self w')) =
    PredictionEnsemble.initialized (PerfectModelEnsemble.base (self w)) ∧
  PerfectModelEnsemble.control (self w') = PerfectModelEnsemble.control (self w).
Proof.
  destruct w as [o cs]. simpl.
  unfold PerfectModelEnsemble.generate_uninitialized, mbind, M_bind, getattr,
    setattr, logged, getitem, slot_getitem, getitem, to_dataset, raise, mret, M_ret.
  simpl. destruct var as [v|]; simpl; [|done].
  repeat (case_match; simpl in *; simplify_eq); done.
Qed.

Lemma pm_inv_same (o o' : PerfectModelEnsemble.t) :
  PredictionEnsemble.initialized (PerfectModelEnsemble.base o') =
    PredictionEnsemble.initialized (PerfectModelEnsemble.base o) →
  PerfectModelEnsemble.control o' = PerfectModelEnsemble.control o →
  pm_inv o → pm_inv o'.
Proof. unfold pm_inv. by intros -> ->. Qed.

Lemma pm_add_control_keeps (x : xobj) (w : world PerfectModelEnsemble.t) :
  pm_inv (self w) →
  let w' := (PerfectModelEnsemble.add_control x w).2 in
  pm_inv (self w') ∧
  PerfectModelEnsemble.base (self w') = PerfectModelEnsemble.base (self w).
Proof.
  intros Hinv. simpl.
  destruct (guarded_store_outcome x
              (PredictionEnsemble.initialized ∘ PerfectModelEnsemble.base)
              (λ d, PerfectModelEnsemble.set_control (Held d)) w (proj1 (proj1 Hinv)))
    as [Hsame|(ds & Hacc & Hrun)];
    unfold PerfectModelEnsemble.add_control.
  - by rewrite Hsame.
  - rewrite Hrun. simpl. split; [|done]. split; [apply Hinv|done].
Qed.

Lemma hc_inv_same (o o' : HindcastEnsemble.t) :
  o' = o → hc_inv o → hc_inv o'.
Proof. by intros ->. Qed.

Lemma hc_add_reference_keeps (x : xobj) (name : string)
    (w : world HindcastEnsemble.t) :
  hc_inv (self w) →
  let w' := (HindcastEnsemble.add_reference x name w).2 in
  hc_inv (self w') ∧
  HindcastEnsemble.base (self w') = HindcastEnsemble.base (self w).
Proof.
  intros Hinv. simpl.
  destruct (guarded_store_outcome x
              (PredictionEnsemble.initialized ∘ HindcastEnsemble.base)
              (λ d, HindcastEnsemble.set_reference name d) w (proj1 (proj1 Hinv)))
    as [Hsame|(ds & Hacc & Hrun)];
    unfold HindcastEnsemble.add_reference.
  - by rewrite Hsame.
  - rewrite Hrun. simpl. split; [|done].
    destruct Hinv as (Hok & Hrefs & Hun). split_and!; [done| |done].
    simpl. by apply map_Forall_insert_2.
Qed.

Lemma hc_add_uninitialized_keeps (x : xobj) (w : world HindcastEnsemble.t) :
  hc_inv (self w) →
  let w' := (HindcastEnsemble.add_uninitialized x w).2 in
  hc_inv (self w') ∧
  PredictionEnsemble.initialized (HindcastEnsemble.base (self w')) =
    PredictionEnsemble.initialized (HindcastEnsemble.base (self w)) ∧
  HindcastEnsemble.reference (self w') = HindcastEnsemble.reference (self w).
Proof.
  intros Hinv. simpl.
  destruct (guarded_store_outcome x
              (PredictionEnsemble.initialized ∘ HindcastEnsemble.base)
              (λ d, HindcastEnsemble.set_uninitialized (Held d)) w (proj1 (proj1 Hinv)))
    as [Hsame|(ds & Hacc & Hrun)];
    unfold HindcastEnsemble.add_uninitialized.
  - by rewrite Hsame.
  - rewrite Hrun. simpl. split; [|done].
    destruct Hinv as (Hok & Hrefs & Hun). by split_and!.
Qed.

Lemma hc_init_inv {S} (x : xobj) (s s' : S) (o : HindcastEnsemble.t) :
  HindcastEnsemble.__init__ x s = (Return o, s') → hc_inv o.
Proof.
  unfold HindcastEnsemble.__init__, PredictionEnsemble.__init__,
    _check_prediction_ensemble_dimensions, mbind, M_bind.
  destruct (promote x s) as [[ds|e] s0]; [|done]. simpl.
  rewrite andb_true_r.
  destruct (bool_decide ("init" ∈ dom (dims ds))) eqn:Hi,
    (bool_decide ("lead" ∈ dom (dims ds))) eqn:Hl; simpl; try done.
  intros [= <- _]. apply bool_decide_eq_true_1 in Hi, Hl.
  split_and!; done || apply map_Forall_empty.
Qed.

End invariants.

Section sessions.
Context `{ext.Engines} `{ext.Runtime}.

Lemma pm_after_keeps (w : world PerfectModelEnsemble.t) (c : pm_method) :
  pm_inv (self w) →
  pm_inv (self (pm_after w c)) ∧
  PredictionEnsemble.initialized (PerfectModelEnsemble.base (self (pm_after w c))) =
    PredictionEnsemble.initialized (PerfectModelEnsemble.base (self w)).
Proof.
  intros Hinv. destruct c as [x|var|m c|m c|n m|var m c s b p]; simpl.
  - destruct (pm_add_control_keeps x w Hinv) as [? Hb]. simpl in Hb.
    by rewrite Hb.
  - destruct (generate_uninitialized_keeps var w) as [Hi Hc]. simpl in Hi, Hc.
    split; [|done]. by apply (pm_inv_same (self w)).
  - destruct (pm_compute_metric_observes m c w) as [-> _]. done.
  - destruct (pm_compute_uninitialized_observes m c w) as [-> _]. done.
  - destruct (pm_compute_persistence_observes n m w) as [-> _]. done.
  - destruct (pm_bootstrap_observes var m c s b p w) as [-> _]. done.
Qed.

Lemma hc_after_keeps (w : world HindcastEnsemble.t) (c : hc_method) :
  hc_inv (self w) →
  hc_inv (self (hc_after w c)) ∧
  PredictionEnsemble.initialized (HindcastEnsemble.base (self (hc_after w c))) =
    PredictionEnsemble.initialized (HindcastEnsemble.base (self w)).
Proof.
  intros Hinv. destruct c as [x name|x|r m c|r m c|r n m|r]; simpl.
  - destruct (hc_add_reference_keeps x name w Hinv) as [? Hb]. simpl in Hb.
    by rewrite Hb.
  - destruct (hc_add_uninitialized_keeps x w Hinv) as (? & ? & ?). done.
  - destruct (hc_compute_metric_observes r m c w) as [-> _]. done.
  - destruct (hc_compute_uninitialized_observes r m c w) as [-> _]. done.
  - destruct (hc_compute_persistence_observes r n m w) as [-> _]. done.
  - done.
Qed.

End sessions.

(** X8. Whatever methods are called on a constructed [PerfectModelEnsemble],
    with whatever arguments and whether they return or raise, the
    initialized dataset stays the one given at construction (with its
    [init] and [lead] dimensions), and the control is either still the
    empty dict or a dataset with the required dimensions that shares a
    variable with the initialized dataset. *)
Theorem perfect_model_session_invariant `{ext.Engines} (x : xobj)
    (o : PerfectModelEnsemble.t) (session : list pm_method) :
  PerfectModelEnsemble.__init__ x () = (Return o, ()) →
  let w := foldl pm_after (World o []) session in
  let init := PredictionEnsemble.initialized (PerfectModelEnsemble.base o) in
  PredictionEnsemble.initialized (PerfectModelEnsemble.base (self w)) = init ∧
  initialized_ok init ∧
  (PerfectModelEnsemble.control (self w) = EmptyDict ∨
   ∃ c, PerfectModelEnsemble.control (self w) = Held c ∧
        dom (dims c) = spec_reference_dims init ∧
        ∃ v, v ∈ data_vars init ∧ v ∈ data_vars c).
Proof.
  intros Hinit%pm_init_inv. destruct Hinit as (Hinv & _ & _). simpl.
  assert (∀ w, pm_inv (self w) →
            pm_inv (self (foldl pm_after w session)) ∧
            PredictionEnsemble.initialized
              (PerfectModelEnsemble.base (self (foldl pm_after w session))) =
            PredictionEnsemble.initialized (PerfectModelEnsemble.base (self w)))
    as Hall.
  { induction session as [|c session IH]; intros w Hw; simpl; [done|].
    destruct (pm_after_keeps w c Hw) as [Hw' Hi].
    destruct (IH _ Hw') as [? Hi']. split; [done|]. by rewrite Hi'. }
  destruct (Hall (World o []) Hinv) as [[Hok Hctrl] Hsame]. simpl in Hsame.
  rewrite Hsame in Hok, Hctrl. split_and!; [done..|].
  destruct (PerfectModelEnsemble.control (self (foldl pm_after (World o []) session)))
    as [|c]; [by left|].
  right. exists c. split; [done|]. split; [apply Hctrl|].
  by apply accepted_shared.
Qed.

(** X9. Whatever methods are called on a constructed [HindcastEnsemble],
    the initialized dataset stays the one given at construction, every
    stored reference has the required dimensions and shares a variable
    with the initialized dataset, and so does the uninitialized dataset
    once one is stored. *)
Theorem hindcast_session_invariant `{ext.Engines} `{ext.Runtime} (x : xobj)
    (o : HindcastEnsemble.t) (session : list hc_method) :
  HindcastEnsemble.__init__ x () = (Return o, ()) →
  let w := foldl hc_after (World o []) session in
  let init := PredictionEnsemble.initialized (HindcastEnsemble.base o) in
  PredictionEnsemble.initialized (HindcastEnsemble.base (self w)) = init ∧
  initialized_ok init ∧
  (∀ k r, HindcastEnsemble.reference (self w) !! k = Some r →
     dom (dims r) = spec_reference_dims init ∧
     ∃ v, v ∈ data_vars init ∧ v ∈ data_vars r) ∧
  (∀ u, PredictionEnsemble.uninitialized (HindcastEnsemble.base (self w)) = Held u →
     dom (dims u) = spec_reference_dims init ∧
     ∃ v, v ∈ data_vars init ∧ v ∈ data_vars u).
Proof.
  intros Hinv%hc_init_inv. simpl.
  assert (∀ w, hc_inv (self w) →
            hc_inv (self (foldl hc_after w session)) ∧
            PredictionEnsemble.initialized
              (HindcastEnsemble.base (self (foldl hc_after w session))) =
            PredictionEnsemble.initialized (HindcastEnsemble.base (self w)))
    as Hall.
  { induction session as [|c session IH]; intros w Hw; simpl; [done|].
    destruct (hc_after_keeps w c Hw) as [Hw' Hi].
    destruct (IH _ Hw') as [? Hi']. split; [done|]. by rewrite Hi'. }
  destruct (Hall (World o []) Hinv) as [(Hok & Hrefs & Hun) Hsame].
  simpl in Hsame. rewrite Hsame in Hok, Hrefs, Hun. split_and!; [done..| |].
  - intros k r Hk. specialize (Hrefs k r Hk). simpl in Hrefs.
    split; [apply Hrefs|]. by apply accepted_shared.
  - intros u Hu. rewrite Hu in Hun. split; [apply Hun|]. by apply accepted_shared.
Qed.

(** * Adding, then computing *)

Lemma guarded_store_success {O} (x : xobj) (get_init : O → Dataset)
    (store : Dataset → O → O) (w w' : world O) :
  (xobj ← promote x;
   init ← getattr get_init;
   _check_reference_dimensions init xobj;;
   _check_reference_vars_match_initialized init xobj;;
   setattr (store xobj)) w = (Return (), w') →
  ∃ ds, promote x w = (Return ds, w) ∧
        (∃ v, v ∈ data_vars (get_init (self w)) ∧ v ∈ data_vars ds) ∧
        w' = World (store ds (self w)) (calls w).
Proof.
  unfold mbind, M_bind, getattr, setattr.
  pose proof (promote_state x w) as Hp.
  destruct (promote x w) as [[ds|e0] w0]; simpl in Hp; subst w0; [|done].
  pose proof (check_reference_dimensions_state (get_init (self w)) ds w) as Hd.
  destruct (_check_reference_dimensions _ ds w) as [[[]|e1] w1];
    simpl in Hd; subst w1; [|done].
  rewrite check_reference_vars_run.
  case_bool_decide as Hdisj; simpl; [done|]. intros [= <-].
  exists ds. split_and!; [done| |done].
  destruct (decide (Exists (λ v, v ∈ data_vars ds) (data_vars (get_init (self w)))))
    as [He|Hn].
  - apply Exists_exists in He as (v & ? & ?). by exists v.
  - exfalso. apply Hdisj, py_set_disjoint. intros v Hv Hc. apply Hn.
    apply Exists_exists. by exists v.
Qed.

(** X10. Once [add_control] has returned, the ensemble is ready:
    the control is the (promoted) dataset given, it shares a variable with
    the initialized dataset, [compute_metric] returns the engine's result
    for the initialized dataset and that control, [compute_persistence]
    returns when the initialized dataset has its [lead] dimension, and
    [bootstrap] returns for every variable the two datasets share. *)
Theorem computing_after_add_control `{ext.Engines} (x : xobj)
    (w w' : world PerfectModelEnsemble.t) :
  PerfectModelEnsemble.add_control x w = (Return (), w') →
  let init := PredictionEnsemble.initialized (PerfectModelEnsemble.base (self w)) in
  ∃ c,
    promote x () = (Return c, ()) ∧
    w' = World (PerfectModelEnsemble.set_control (Held c) (self w)) (calls w) ∧
    (∃ v, v ∈ data_vars init ∧ v ∈ data_vars c) ∧
    (∀ metric comparison,
       PerfectModelEnsemble.compute_metric metric comparison w' =
         (Return (One (ext.compute_perfect_model (Held init) (Held c) metric comparison)),
          World (self w')
            (calls w ++ [ext.ComputePerfectModel (Held init) (Held c) metric comparison]))) ∧
    ("lead" ∈ dom (dims init) → ∀ nlags metric,
       PerfectModelEnsemble.compute_persistence nlags metric w' =
         (Return (One (ext.compute_persistence init (Held c) metric)),
          World (self w') (calls w ++ [ext.ComputePersistence init (Held c) metric]))) ∧
    (∀ v metric comparison sig boot pers_sig,
       v ∈ data_vars init → v ∈ data_vars c →
       PerfectModelEnsemble.bootstrap (Some v) metric comparison sig boot pers_sig w' =
         (Return (One (bootstrap_result init c metric comparison sig boot pers_sig v)),
          World (self w')
            (calls w ++ [bootstrap_call init c metric comparison sig boot pers_sig v]))).
Proof.
  intros Hrun. simpl.
  apply (guarded_store_success x
           (PredictionEnsemble.initialized ∘ PerfectModelEnsemble.base)
           (λ d, PerfectModelEnsemble.set_control (Held d))) in Hrun
    as (c & Hp & (v & Hvi & Hvc) & ->).
  assert (data_vars c ≠ []) as Hne.
  { intros Hnil. rewrite Hnil in Hvc. by apply elem_of_nil in Hvc. }
  exists c. simpl in *. split_and!.
  - destruct x as [ds|[[n|] d]];
      unfold promote, to_dataset, mret, M_ret, raise in *; simpl in *;
      by simplify_eq.
  - done.
  - by exists v.
  - intros metric comparison.
    by rewrite (pm_compute_metric_run
                  (PerfectModelEnsemble.set_control (Held c) (self w)) (calls w) c).
  - intros Hlead nlags metric.
    by rewrite (pm_compute_persistence_run
                  (PerfectModelEnsemble.set_control (Held c) (self w)) (calls w) c).
  - intros u metric comparison sig boot pers_sig Hui Huc.
    by rewrite (bootstrap_named
                  (PerfectModelEnsemble.set_control (Held c) (self w)) (calls w) c u).
Qed.

(** * Generating the uninitialized ensemble *)


(** * Bootstrapping: failures *)

Section bootstrap_failures.
Context `{ext.Engines}.
Import PredictionEnsemble PerfectModelEnsemble.


End bootstrap_failures.


(** * The shape of what [compute_persistence] returns *)

(** X13. [HindcastEnsemble.compute_persistence] raises [DatasetError] when
    no reference is stored, whatever its arguments. Called without
    [refname] it never returns a single result: with exactly one reference
    it returns a dict with that one name, where [compute_metric] on the
    same ensemble returns the single result. *)
Theorem hindcast_persistence_shape `{ext.Engines} `{ext.Runtime}
    (w : world HindcastEnsemble.t) :
  let o := self w in
  let init := PredictionEnsemble.initialized (HindcastEnsemble.base o) in
  let refs := HindcastEnsemble.reference o in
  (refs = ∅ → ∀ refname nlags metric,
     HindcastEnsemble.compute_persistence refname nlags metric w =
       (Raise DatasetError, w)) ∧
  (∀ nlags metric res,
     (HindcastEnsemble.compute_persistence None nlags metric w).1 ≠ Return (One res)) ∧
  (∀ k r, refs = {[k := r]} → "lead" ∈ dom (dims init) →
     (∀ nlags metric,
        HindcastEnsemble.compute_persistence None nlags metric w =
          (Return (Many {[k := ext.compute_persistence init (Held r) metric]}),
           World o (calls w ++ [ext.ComputePersistence init (Held r) metric]))) ∧
     (hindcast_wf o → ∀ metric comparison,
        HindcastEnsemble.compute_metric None metric comparison w =
          (Return (One (hindcast_result o metric comparison r)),
           World o (calls w ++ [hindcast_call o metric comparison r])))).
Proof.
  destruct w as [o cs]. simpl. split_and!.
  - intros He refname nlags metric.
    unfold HindcastEnsemble.compute_persistence, mbind, M_bind, getattr. simpl.
    by rewrite He, map_size_empty.
  - intros nlags metric res.
    unfold HindcastEnsemble.compute_persistence, mbind, M_bind, getattr, raise,
      mret, M_ret. simpl.
    repeat (case_match; simpl in *; simplify_eq); done.
  - intros k r Hrefs Hlead. split.
    + intros nlags metric.
      rewrite hc_compute_persistence_all; [|done|].
      * rewrite Hrefs, map_fmap_singleton, map_to_list_singleton. done.
      * rewrite Hrefs. apply insert_non_empty.
    + intros Hwf metric comparison.
      rewrite (compute_metric_single o cs k r);
        [|by rewrite Hrefs, map_size_singleton|by rewrite Hrefs, lookup_singleton_eq].
      apply compute_metric_named; [done|]. by rewrite Hrefs, lookup_singleton_eq.
Qed.

(** * What validation looks at *)

(** X14. The checks look at names only: two candidates with the same
    dimension names and the same data-variable names get the same verdict
    from the dimension check, from the variable check and from
    [add_control], [add_reference] and [add_uninitialized], whatever the
    lengths of their dimensions; nothing checks that a reference covers the
    same time frame as the initialized ensemble. *)
Theorem validation_reads_names_only (init ref ref' : Dataset) :
  "init" ∈ dom (dims init) →
  dom (dims ref) = dom (dims ref') → data_vars ref = data_vars ref' →
  (∀ S (s : S),
     _check_reference_dimensions init ref s = _check_reference_dimensions init ref' s ∧
     _check_reference_vars_match_initialized init ref s =
       _check_reference_vars_match_initialized init ref' s) ∧
  (∀ (w : world PerfectModelEnsemble.t),
     PredictionEnsemble.initialized (PerfectModelEnsemble.base (self w)) = init →
     (PerfectModelEnsemble.add_control (IsDataset ref) w).1 =
     (PerfectModelEnsemble.add_control (IsDataset ref') w).1) ∧
  (∀ (w : world HindcastEnsemble.t) name,
     PredictionEnsemble.initialized (HindcastEnsemble.base (self w)) = init →
     (HindcastEnsemble.add_reference (IsDataset ref) name w).1 =
     (HindcastEnsemble.add_reference (IsDataset ref') name w).1 ∧
     (HindcastEnsemble.add_uninitialized (IsDataset ref) w).1 =
     (HindcastEnsemble.add_uninitialized (IsDataset ref') w).1).
Proof.
  intros Hinit Hdims Hvars.
  assert (∀ O (get_init : O → Dataset) store (w : world O),
    get_init (self w) = init →
    ((xobj ← promote (IsDataset ref);
      init ← getattr get_init;
      _check_reference_dimensions init xobj;;
      _check_reference_vars_match_initialized init xobj;;
      setattr (store xobj)) w).1 =
    ((xobj ← promote (IsDataset ref');
      init ← getattr get_init;
      _check_reference_dimensions init xobj;;
      _check_reference_vars_match_initialized init xobj;;
      setattr (store xobj)) w).1) as Hadd.
  { intros O get_init store w Hw.
    rewrite !guarded_store_run by (by rewrite Hw).
    rewrite Hdims, Hvars. by repeat case_bool_decide. }
  split_and!.
  - intros S s. rewrite !check_reference_dimensions_run by done.
    rewrite !check_reference_vars_run. by rewrite Hdims, Hvars.
  - intros w Hw.
    apply (Hadd _ (PredictionEnsemble.initialized ∘ PerfectModelEnsemble.base)
             (λ d, PerfectModelEnsemble.set_control (Held d)) w Hw).
  - intros w name Hw. split.
    + apply (Hadd _ (PredictionEnsemble.initialized ∘ HindcastEnsemble.base)
               (λ d, HindcastEnsemble.set_reference name d) w Hw).
    + apply (Hadd _ (PredictionEnsemble.initialized ∘ HindcastEnsemble.base)
               (λ d, HindcastEnsemble.set_uninitialized (Held d)) w Hw).
Qed.

(** * The properties at the concrete ensembles *)

Module examples.
Import demo.

(** Decidable facts about the concrete ensembles, by evaluation. *)
Ltac by_evaluation :=
  lazymatch goal with
  | |- _ = _ => vm_compute; reflexivity
  | |- ?P => apply (bool_decide_unpack P); vm_compute; exact I
  end.

Lemma construction_checks_init_and_lead_witness :
  PerfectModelEnsemble.__init__ (IsDataset demo.no_lead) () =
    (Raise (DimensionError None), ()) ∧
  HindcastEnsemble.__init__ (IsDataset demo.forecast) () =
    (Return (HindcastEnsemble.mk (PredictionEnsemble.mk demo.forecast EmptyDict) ∅), ()).
Proof.
  split.
  - apply (construction_checks_init_and_lead demo.no_lead ()).
    right. by_evaluation.
  - apply (construction_checks_init_and_lead demo.forecast ()).
    split; by_evaluation.
Defined.



Lemma failed_add_leaves_state_witness :
  (∃ e, PerfectModelEnsemble.add_control (IsDataset demo.obs_gridded)
          (demo.perfect_model demo.forecast EmptyDict) =
        (Raise e, demo.perfect_model demo.forecast EmptyDict)) ∧
  (∃ e, HindcastEnsemble.add_reference (IsDataset demo.obs_temp) "obs"
          (demo.hindcast demo.forecast EmptyDict [("obs", demo.obs_sst)]) =
        (Raise e, demo.hindcast demo.forecast EmptyDict [("obs", demo.obs_sst)])).
Proof.
  split.
  - assert (∃ e w', PerfectModelEnsemble.add_control (IsDataset demo.obs_gridded)
              (demo.perfect_model demo.forecast EmptyDict) = (Raise e, w'))
      as (e & w' & Hrun) by (do 2 eexists; vm_compute; reflexivity).
    exists e. rewrite Hrun. f_equal.
    exact (proj1 failed_add_leaves_state _ _ _ _ Hrun).
  - assert (∃ e w', HindcastEnsemble.add_reference (IsDataset demo.obs_temp) "obs"
              (demo.hindcast demo.forecast EmptyDict [("obs", demo.obs_sst)]) =
              (Raise e, w'))
      as (e & w' & Hrun) by (do 2 eexists; vm_compute; reflexivity).
    exists e. rewrite Hrun. f_equal.
    exact (proj1 (proj2 failed_add_leaves_state) _ _ _ _ _ Hrun).
Defined.

Lemma vars_to_drop_partition_witness :
  HindcastEnsemble._vars_to_drop "obs" true
    (demo.hindcast demo.forecast EmptyDict [("obs", demo.obs_sst)]) =
  (Return (["SALT"], []), demo.hindcast demo.forecast EmptyDict [("obs", demo.obs_sst)]).
Proof.
  destruct (vars_to_drop_partition
              (demo.hindcast demo.forecast EmptyDict [("obs", demo.obs_sst)])
              "obs" true demo.forecast demo.obs_sst)
    as (dc & dr & -> & _ & _ & Hex).
  - by_evaluation.
  - reflexivity.
  - by_evaluation.
  - by_evaluation.
  - destruct Hex as [-> ->]; [| |reflexivity].
    + intros v. simpl. rewrite !elem_of_cons, elem_of_nil. tauto.
    + intros v. simpl. rewrite !elem_of_cons, elem_of_nil. tauto.
Defined.


Lemma hindcast_compute_metric_dispatch_witness :
  let w := hindcast forecast EmptyDict [("obs", obs_sst); ("rec", obs_salt)] in
  ∃ skill w',
    HindcastEnsemble.compute_metric None "pearson_r" "e2r" w = (Return (Many skill), w') ∧
    dom skill = dom (HindcastEnsemble.reference (self w)).
Proof.
  intros w.
  destruct (hindcast_compute_metric_dispatch w "pearson_r" "e2r") as (_ & _ & Hall);
    [by_evaluation|].
  destruct Hall as (skill & w' & Hrun & Hdom & _); [by_evaluation|].
  exists skill, w'. split; [exact Hrun|exact Hdom].
Defined.

Lemma compute_uninitialized_without_references_witness :
  HindcastEnsemble.compute_uninitialized None "pearson_r" "e2r"
    (hindcast forecast (Held obs_sst) []) =
  (Return (Many ∅), hindcast forecast (Held obs_sst) []).
Proof.
  apply (compute_uninitialized_without_references
           (hindcast forecast (Held obs_sst) []) "pearson_r" "e2r").
  - by_evaluation.
  - by_evaluation.
Defined.

Lemma compute_persistence_delegation_witness :
  PerfectModelEnsemble.compute_persistence (Some 7) "pearson_r"
    (perfect_model forecast (Held obs_sst)) =
  PerfectModelEnsemble.compute_persistence None "pearson_r"
    (perfect_model forecast (Held obs_sst)) ∧
  HindcastEnsemble.compute_persistence None (Some 7) "pearson_r"
    (hindcast forecast EmptyDict [("obs", obs_sst)]) =
  HindcastEnsemble.compute_persistence None None "pearson_r"
    (hindcast forecast EmptyDict [("obs", obs_sst)]).
Proof.
  split.
  - destruct (proj1 (compute_persistence_delegation "pearson_r")
                (perfect_model forecast (Held obs_sst)) obs_sst) as [_ Hsame];
      [by_evaluation|reflexivity|by_evaluation|].
    apply Hsame.
  - destruct (proj2 (proj2 (compute_persistence_delegation "pearson_r"))
                (hindcast forecast EmptyDict [("obs", obs_sst)])) as [_ Hsame];
      [by_evaluation|by_evaluation|].
    apply Hsame.
Defined.

Lemma perfect_model_requires_datasets_witness :
  PerfectModelEnsemble.compute_metric "pearson_r" "m2m"
    (perfect_model forecast EmptyDict) =
  (Raise DatasetError, perfect_model forecast EmptyDict) ∧
  PerfectModelEnsemble.compute_metric "pearson_r" "m2m"
    (perfect_model forecast (Held obs_sst)) =
  (Return (One (ext.ComputePerfectModel (Held forecast) (Held obs_sst) "pearson_r" "m2m")),
   World (self (perfect_model forecast (Held obs_sst)))
     [ext.ComputePerfectModel (Held forecast) (Held obs_sst) "pearson_r" "m2m"]).
Proof.
  split.
  - destruct (perfect_model_requires_datasets (perfect_model forecast EmptyDict)
                "pearson_r" "m2m" None) as (Hnone & _); [by_evaluation|].
    apply Hnone. reflexivity.
  - destruct (perfect_model_requires_datasets (perfect_model forecast (Held obs_sst))
                "pearson_r" "m2m" None) as (_ & Hsome & _); [by_evaluation|].
    apply (Hsome obs_sst). reflexivity.
Defined.

Lemma bootstrap_dispatch_witness :
  let w := perfect_model forecast (Held obs_sst) in
  ∃ d,
    PerfectModelEnsemble.bootstrap None "pearson_r" "m2e" 95 500 None w =
      (Return (Many d),
       World (self w)
         [bootstrap_call forecast obs_sst "pearson_r" "m2e" 95 500 None "SST"]) ∧
    dom d = {["SST"]}.
Proof.
  intros w.
  destruct (bootstrap_dispatch w obs_sst "pearson_r" "m2e" 95 500 None)
    as (_ & _ & Hall); [by_evaluation|reflexivity|by_evaluation|].
  destruct Hall as (d & Hrun & Hdom & _).
  - by_evaluation.
  - intros v Hv. apply list_elem_of_singleton in Hv as ->. by_evaluation.
  - exists d. split; [exact Hrun|]. rewrite Hdom. by_evaluation.
Defined.

(** The forecast has the variables [SST] and [SALT]; the control, which
    [add_control] accepts, has [SST] and [TEMP]. [bootstrap] calls the
    engine for [SST] and then fails on [TEMP]: no dict is returned. *)
Lemma bootstrap_control_variable_not_forecast :
  let w0 := perfect_model forecast EmptyDict in
  let w1 := perfect_model forecast (Held obs_sst_temp) in
  PerfectModelEnsemble.add_control (IsDataset obs_sst_temp) w0 = (Return (), w1) ∧
  length (data_vars (PredictionEnsemble.initialized
                       (PerfectModelEnsemble.base (self w1)))) = 2 ∧
  PerfectModelEnsemble.bootstrap None "pearson_r" "m2e" 95 500 None w1 =
    (Raise (KeyError "TEMP"),
     World (self w1)
       [bootstrap_call forecast obs_sst_temp "pearson_r" "m2e" 95 500 None "SST"]).
Proof. split_and!; vm_compute; reflexivity. Qed.

Import demo_sessions.

Lemma hindcast_compute_uninitialized_dispatch_witness :
  ∃ res,
    (HindcastEnsemble.compute_uninitialized (Some "obs") "pearson_r" "e2r"
       (hindcast forecast (Held obs_sst_temp) [("obs", obs_sst)])).1 =
    Return (One res).
Proof.
  destruct (hindcast_compute_uninitialized_dispatch
              (hindcast forecast (Held obs_sst_temp) [("obs", obs_sst)])
              "pearson_r" "e2r") as [_ Hpresent]; [by_evaluation|].
  destruct (Hpresent obs_sst_temp) as [Hnamed _];
    [reflexivity|by_evaluation|by_evaluation|].
  destruct (Hnamed "obs" obs_sst) as [Hrun _]; [by_evaluation|].
  eexists. rewrite Hrun. reflexivity.
Defined.

Lemma unknown_reference_name_witness :
  HindcastEnsemble.compute_metric (Some "rec") "pearson_r" "e2r"
    (hindcast forecast EmptyDict [("obs", obs_sst)]) =
  (Raise (KeyError "rec"), hindcast forecast EmptyDict [("obs", obs_sst)]).
Proof.
  destruct (unknown_reference_name
              (hindcast forecast EmptyDict [("obs", obs_sst)]) "rec")
    as [Hmissing _].
  destruct Hmissing as (_ & _ & Hmetric & _); [by_evaluation|].
  apply Hmetric. by_evaluation.
Defined.





Lemma perfect_model_session_invariant_witness :
  PerfectModelEnsemble.control
    (self (foldl pm_after
             (World (PerfectModelEnsemble.mk
                       (PredictionEnsemble.mk forecast EmptyDict) EmptyDict) [])
             pm_session)) = EmptyDict ∨
  ∃ c, PerfectModelEnsemble.control
         (self (foldl pm_after
                  (World (PerfectModelEnsemble.mk
                            (PredictionEnsemble.mk forecast EmptyDict) EmptyDict) [])
                  pm_session)) = Held c ∧
       dom (dims c) = spec_reference_dims forecast ∧
       ∃ v, v ∈ data_vars forecast ∧ v ∈ data_vars c.
Proof.
  destruct (perfect_model_session_invariant (IsDataset forecast)
              (PerfectModelEnsemble.mk (PredictionEnsemble.mk forecast EmptyDict)
                 EmptyDict) pm_session) as (_ & _ & Hctrl); [by_evaluation|].
  exact Hctrl.
Defined.

Lemma hindcast_session_invariant_witness :
  PredictionEnsemble.initialized
    (HindcastEnsemble.base
       (self (foldl hc_after
                (World (HindcastEnsemble.mk
                          (PredictionEnsemble.mk forecast EmptyDict) ∅) [])
                hc_session))) = forecast.
Proof.
  destruct (hindcast_session_invariant (IsDataset forecast)
              (HindcastEnsemble.mk (PredictionEnsemble.mk forecast EmptyDict) ∅)
              hc_session) as (Hinit & _); [by_evaluation|].
  exact Hinit.
Defined.

Lemma computing_after_add_control_witness :
  (PerfectModelEnsemble.compute_metric "pearson_r" "m2m"
     (perfect_model forecast (Held obs_sst))).1 =
  Return (One (ext.ComputePerfectModel (Held forecast) (Held obs_sst) "pearson_r" "m2m")).
Proof.
  destruct (computing_after_add_control (IsDataset obs_sst)
              (perfect_model forecast EmptyDict)
              (perfect_model forecast (Held obs_sst)))
    as (c & Hp & _ & _ & Hmetric & _); [by_evaluation|].
  injection Hp as <-. rewrite Hmetric. reflexivity.
Defined.



Lemma hindcast_persistence_shape_witness :
  HindcastEnsemble.compute_persistence None None "pearson_r"
    (hindcast forecast EmptyDict []) =
  (Raise DatasetError, hindcast forecast EmptyDict []) ∧
  HindcastEnsemble.compute_persistence None None "pearson_r"
    (hindcast forecast EmptyDict [("obs", obs_sst)]) =
  (Return (Many {["obs" := ext.ComputePersistence forecast (Held obs_sst) "pearson_r"]}),
   World (self (hindcast forecast EmptyDict [("obs", obs_sst)]))
     [ext.ComputePersistence forecast (Held obs_sst) "pearson_r"]).
Proof.
  split.
  - apply (proj1 (hindcast_persistence_shape (hindcast forecast EmptyDict []))).
    reflexivity.
  - destruct (hindcast_persistence_shape
                (hindcast forecast EmptyDict [("obs", obs_sst)]))
      as (_ & _ & Hone).
    destruct (Hone "obs" obs_sst) as [Hrun _]; [reflexivity|by_evaluation|].
    apply Hrun.
Defined.

Lemma validation_reads_names_only_witness :
  (HindcastEnsemble.add_reference (IsDataset obs_sst) "obs"
     (hindcast forecast EmptyDict [])).1 =
  (HindcastEnsemble.add_reference (IsDataset obs_sst_long) "obs"
     (hindcast forecast EmptyDict [])).1.
Proof.
  destruct (validation_reads_names_only forecast obs_sst obs_sst_long)
    as (_ & _ & Hhc); [by_evaluation|by_evaluation|reflexivity|].
  destruct (Hhc (hindcast forecast EmptyDict []) "obs") as [Hadd _]; [reflexivity|].
  exact Hadd.
Defined.

End examples.
